(** * OGRILI2DataSource: the INTERLIS 2 transfer-container controller

    A shallow embedding of [ogr/ogrsf_frmts/ili/ogrili2datasource.cpp]:
    the constructor, the destructor, [Open], [Create], [ICreateLayer],
    [TestCapability] and [GetLayer], written as state-passing functions
    over the fields of the C++ object and a chronological trace of the
    calls the object makes to its collaborators (virtual file I/O, the
    error facility, the model reader and the transfer reader). *)

From Stdlib Require Import ZArith List String Ascii Bool Lia.
Import ListNotations.

Local Open Scope list_scope.
Local Open Scope string_scope.
Local Open Scope Z_scope.

(** ** C strings *)

Module CStr.

(** The terminator of a C string. *)
Definition NUL : ascii := "000"%char.

(** [std::string::c_str()] handed to a [%s] conversion, or a [char]
    buffer read as a string: the bytes before the first NUL. *)
Fixpoint c_str (s : string) : string :=
  match s with
  | EmptyString => EmptyString
  | String c r => if Ascii.eqb c NUL then EmptyString else String c (c_str r)
  end.

(** [s[0]] of a NUL-terminated buffer: the terminator when it is empty. *)
Definition at0 (s : string) : ascii :=
  match s with
  | EmptyString => NUL
  | String c _ => c
  end.

(** [strcmp(a, b) == 0]. *)
Definition strcmp0 (a b : string) : bool := String.eqb a b.

(** [STARTS_WITH(a, b)], that is [strncmp(a, b, strlen(b)) == 0]. *)
Fixpoint STARTS_WITH (a b : string) {struct b} : bool :=
  match b with
  | EmptyString => true
  | String cb rb =>
      match a with
      | EmptyString => false
      | String ca ra => Ascii.eqb ca cb && STARTS_WITH ra rb
      end
  end.

(** [tolower] in the C locale. *)
Definition tolower (c : ascii) : ascii :=
  let n := N_of_ascii c in
  if (65 <=? n)%N && (n <=? 90)%N then ascii_of_N (n + 32) else c.

Fixpoint lower (s : string) : string :=
  match s with
  | EmptyString => EmptyString
  | String c r => String (tolower c) (lower r)
  end.

(** [EQUAL(a, b)], that is [strcasecmp(a, b) == 0]: the two strings are
    compared byte by byte after [tolower]. *)
Fixpoint EQUAL (a b : string) : bool :=
  match a, b with
  | EmptyString, EmptyString => true
  | String ca ra, String cb rb => Ascii.eqb (tolower ca) (tolower cb) && EQUAL ra rb
  | _, _ => false
  end.

(** [strstr(haystack, needle)]: the offset of the first occurrence of
    [needle], [None] for the null pointer. *)
Fixpoint strstr (haystack needle : string) : option nat :=
  if STARTS_WITH haystack needle then Some O
  else match haystack with
       | EmptyString => None
       | String _ rest => option_map S (strstr rest needle)
       end.

End CStr.


Import CStr.

(** Characters that cannot be written inside a string literal. *)
Definition LF : string := String (ascii_of_nat 10) EmptyString.
Definition DQ : string := String (ascii_of_nat 34) EmptyString.

Definition TRUE : Z := 1.
Definition FALSE : Z := 0.

(** ** Collaborator data (cpl_error.h, ogr_core.h, ogr_feature.h, imdreader.h) *)

Inductive CPLErr : Type := CE_None | CE_Debug | CE_Warning | CE_Failure | CE_Fatal.

Inductive CPLErrorNum : Type :=
| CPLE_None | CPLE_AppDefined | CPLE_OutOfMemory | CPLE_FileIO | CPLE_OpenFailed.

(** Capability names of ogr_core.h. *)
Definition ODsCCreateLayer : string := "CreateLayer".
Definition ODsCCurveGeometries : string := "CurveGeometries".
Definition ODsCZGeometries : string := "ZGeometries".

(** [OGRwkbGeometryType] by its numeric code. *)
Definition OGRwkbGeometryType : Type := Z.
Definition wkbUnknown : OGRwkbGeometryType := 0.
Definition wkbNone : OGRwkbGeometryType := 100.

Record OGRFieldDefn : Type := mkField {
  field_name : string;
  field_type : Z
}.

Record OGRGeomFieldDefn : Type := mkGeomField {
  geomfield_name : string;
  GetType : OGRwkbGeometryType
}.

Record OGRFeatureDefn : Type := mkFeatureDefn {
  GetName : string;
  attribute_fields : list OGRFieldDefn;
  geometry_fields : list OGRGeomFieldDefn
}.

(** Modelled from the spec: the class OGRFeatureDefn is declared in
    ogr_feature.h and not defined in this file.  A definition made by
    [new OGRFeatureDefn(name)] followed by [SetGeomType(t)] is the ad-hoc
    schema of the spec, "containing only a geometry field of the requested
    type (or none)": the constructor gives the definition no attribute
    field and one geometry field of unknown type; [SetGeomType] retypes
    that field, removes it when the type is [wkbNone], and adds one when
    there is none and the type is not [wkbNone]. *)
Definition new_OGRFeatureDefn (pszName : string) : OGRFeatureDefn :=
  mkFeatureDefn pszName [] [mkGeomField "" wkbUnknown].

Definition SetGeomType (d : OGRFeatureDefn) (eNewType : OGRwkbGeometryType)
  : OGRFeatureDefn :=
  match geometry_fields d with
  | g :: rest =>
      match rest with
      | [] => if eNewType =? wkbNone
              then mkFeatureDefn (GetName d) (attribute_fields d) []
              else mkFeatureDefn (GetName d) (attribute_fields d)
                     [mkGeomField (geomfield_name g) eNewType]
      | _ => mkFeatureDefn (GetName d) (attribute_fields d)
               (mkGeomField (geomfield_name g) eNewType :: rest)
      end
  | [] => if eNewType =? wkbNone then d
          else mkFeatureDefn (GetName d) (attribute_fields d)
                 [mkGeomField "" eNewType]
  end.

Definition GetGeomType (d : OGRFeatureDefn) : OGRwkbGeometryType :=
  match geometry_fields d with
  | g :: _ => GetType g
  | [] => wkbNone
  end.

(** [GeomFieldInfos]: geometry field name to INTERLIS geometry type. *)
Definition GeomFieldInfos : Type := list (string * string).

(** [FeatureDefnInfo]: [GetTableDefnRef()] is null for a table the model
    does not have. *)
Record FeatureDefnInfo : Type := mkFeatureDefnInfo {
  GetTableDefnRef : option OGRFeatureDefn;
  poGeomFieldInfos : GeomFieldInfos
}.

Record IliModelInfo : Type := mkModelInfo {
  name : string;
  version : string;
  uri : string
}.

(** The members of [ImdReader] this file reads. *)
Record ImdReader : Type := mkImdReader {
  iliVersion : Z;
  modelInfos : list IliModelInfo;
  mainBasketName : string;
  featureDefnInfos : list FeatureDefnInfo
}.

(** A layer object; [OGRLayer *] and [OGRILI2Layer *] point to the same
    objects (the cast in [GetLayer]). *)
Record OGRILI2Layer : Type := mkLayer {
  poFeatureDefn : OGRFeatureDefn;
  oGeomFieldInfos : GeomFieldInfos
}.

Definition OGRLayer : Type := OGRILI2Layer.

(** An open virtual file. *)
Definition VSILFILE : Type := nat.

(** ** The collaborators

    Functions of the port library, the virtual file system, the model
    reader and the transfer reader.  They are defined outside this file;
    the controller is verified for every implementation of them. *)

Class Platform : Type := {
  (* cpl_string.h, cpl_conv.h, gdal.h *)
  CSLTokenizeString2 : string -> string -> Z -> list string;
  CSLFetchNameValue : list string -> string -> option string;
  CPLGetExtensionSafe : string -> string;
  CPLFormFilenameSafe : string -> string -> option string -> string;
  GDALVersionInfo : string -> string;
  (* cpl_vsi.h: whether a path opens in a mode, and the bytes of a file *)
  vsi_fopen : string -> string -> option VSILFILE;
  vsi_bytes : VSILFILE -> string;
  (* imdreader.h *)
  ImdReader_new : Z -> ImdReader;
  ImdReader_ReadModel : ImdReader -> string -> ImdReader;
  GetFeatureDefnInfo : ImdReader -> string -> FeatureDefnInfo;
  (* ili2reader.h: the interface IILI2Reader *)
  IILI2Reader : Type;
  new_ILI2Reader : option IILI2Reader;
  ILI2_ReadModel : IILI2Reader -> ImdReader -> string -> IILI2Reader * ImdReader;
  ILI2_SetSourceFile : IILI2Reader -> string -> IILI2Reader;
  ILI2_SaveClasses : IILI2Reader -> string -> IILI2Reader;
  ILI2_GetLayers : IILI2Reader -> list OGRLayer
}.

(** What the controller asks of its collaborators, in the order it asks. *)
Inductive Event : Type :=
| EvVSIFOpenL (pszFilename pszAccess : string) (fp : option VSILFILE)
| EvVSIFReadL (fp : VSILFILE) (nSize nCount : Z) (nRead : Z)
| EvVSIFPrintfL (fp : VSILFILE) (text : string)
| EvVSIFCloseL (fp : VSILFILE)
| EvCPLError (eErrClass : CPLErr) (err_no : CPLErrorNum) (msg : string)
| EvImdReadModel (pszFilename : string)
| EvCreateILI2Reader (ok : bool)
| EvReaderReadModel (pszModelFilename : string)
| EvSetSourceFile (pszFilename : string)
| EvSaveClasses (pszFilename : string)
| EvGetLayers
| EvResetReading (layer : OGRLayer).

Definition CSLCount (l : list string) : Z := Z.of_nat (List.length l).

(** [CPLStrdup]: a null pointer is copied as the empty string. *)
Definition CPLStrdup (s : option string) : string :=
  match s with
  | Some v => v
  | None => ""
  end.

(** ** The object and its methods *)

Section DataSource.

Context {P : Platform}.

(** The data members of [OGRILI2DataSource] (ogr_ili2.h). *)
Record OGRILI2DataSource : Type := mkDS {
  listLayer : list OGRLayer;
  pszName : option string;
  poImdReader : ImdReader;
  poReader : option IILI2Reader;
  fpOutput : option VSILFILE;
  nLayers : Z;
  papoLayers : list OGRILI2Layer
}.

(** The object together with everything it has asked of the outside. *)
Record State : Type := mkState {
  self : OGRILI2DataSource;
  trace : list Event
}.

(** A method: it reads and updates the object, extends the trace, and
    returns a value. *)
Definition M (A : Type) : Type := State -> A * State.

Definition ret {A : Type} (a : A) : M A := fun st => (a, st).

Definition bind {A B : Type} (c : M A) (k : A -> M B) : M B :=
  fun st => let (a, st') := c st in k a st'.

Notation "x <- c1 ;; c2" := (bind c1 (fun x => c2))
  (at level 61, c1 at next level, right associativity).
Notation "e1 ;; e2" := (bind e1 (fun _ => e2))
  (at level 61, right associativity).

Definition this : M OGRILI2DataSource := fun st => (self st, st).

Definition assign (f : OGRILI2DataSource -> OGRILI2DataSource) : M unit :=
  fun st => (tt, mkState (f (self st)) (trace st)).

Definition emit (e : Event) : M unit :=
  fun st => (tt, mkState (self st) (trace st ++ [e])%list).

Fixpoint for_each {A : Type} (l : list A) (body : A -> M unit) : M unit :=
  match l with
  | [] => ret tt
  | x :: rest => body x ;; for_each rest body
  end.

Definition set_listLayer (v : list OGRLayer) (d : OGRILI2DataSource) :=
  mkDS v (pszName d) (poImdReader d) (poReader d) (fpOutput d) (nLayers d)
    (papoLayers d).
Definition set_pszName (v : option string) (d : OGRILI2DataSource) :=
  mkDS (listLayer d) v (poImdReader d) (poReader d) (fpOutput d) (nLayers d)
    (papoLayers d).
Definition set_poImdReader (v : ImdReader) (d : OGRILI2DataSource) :=
  mkDS (listLayer d) (pszName d) v (poReader d) (fpOutput d) (nLayers d)
    (papoLayers d).
Definition set_poReader (v : option IILI2Reader) (d : OGRILI2DataSource) :=
  mkDS (listLayer d) (pszName d) (poImdReader d) v (fpOutput d) (nLayers d)
    (papoLayers d).
Definition set_fpOutput (v : option VSILFILE) (d : OGRILI2DataSource) :=
  mkDS (listLayer d) (pszName d) (poImdReader d) (poReader d) v (nLayers d)
    (papoLayers d).

(** Lines 278-281: the count goes up by one, the array is reallocated to
    that many slots and its last slot takes the layer. *)
Definition push_layer (l : OGRILI2Layer) (d : OGRILI2DataSource) :=
  mkDS (listLayer d) (pszName d) (poImdReader d) (poReader d) (fpOutput d)
    (nLayers d + 1) (papoLayers d ++ [l])%list.

(** *** Calls to the collaborators *)

Definition VSIFOpenL (pszFilename pszAccess : string) : M (option VSILFILE) :=
  let fp := vsi_fopen pszFilename pszAccess in
  emit (EvVSIFOpenL pszFilename pszAccess fp) ;; ret fp.

(** A read from the start of the file: the items there are, [nCount] at most. *)
Definition VSIFReadL (nSize nCount : Z) (fp : VSILFILE) : M string :=
  let data := substring 0 (Z.to_nat (nSize * nCount)) (vsi_bytes fp) in
  emit (EvVSIFReadL fp nSize nCount (Z.of_nat (String.length data))) ;; ret data.

Definition VSIFPrintfL (fp : VSILFILE) (text : string) : M unit :=
  emit (EvVSIFPrintfL fp text).

Definition VSIFCloseL (fp : VSILFILE) : M unit := emit (EvVSIFCloseL fp).

Definition CPLError (eErrClass : CPLErr) (err_no : CPLErrorNum) (msg : string)
  : M unit :=
  emit (EvCPLError eErrClass err_no msg).

(** *** OGRILI2DataSource() *)

Definition constructor : OGRILI2DataSource :=
  mkDS [] None (ImdReader_new 2) None None 0 [].

Definition fresh : State := mkState constructor [].

(** *** ~OGRILI2DataSource()

    The layers of [papoLayers], the array, the reader, the model reader and
    the name are released; releasing memory asks nothing of the outside and
    leaves no event. *)

Definition datasection_close : string := "</DATASECTION>" ++ LF.
Definition transfer_close : string := "</TRANSFER>" ++ LF.

Definition basket_close (imd : ImdReader) : string :=
  "</" ++ c_str (mainBasketName imd) ++ ">" ++ LF.

Definition destructor : M unit :=
  d <- this ;;
  match fpOutput d with
  | Some fp =>
      VSIFPrintfL fp (basket_close (poImdReader d)) ;;
      VSIFPrintfL fp datasection_close ;;
      VSIFPrintfL fp transfer_close ;;
      VSIFCloseL fp
  | None => ret tt
  end.

(** *** Open() *)

(** Lines 70-90: the data path and the model path of the address; [None]
    when the address has no part. *)
Definition resolve_names (pszNewName : string) (papszOpenOptionsIn : list string)
  : option (string * string) :=
  match CSLFetchNameValue papszOpenOptionsIn "MODEL" with
  | Some model => Some (pszNewName, model)
  | None =>
      let filenames := CSLTokenizeString2 pszNewName "," 0 in
      let nCount := CSLCount filenames in
      if nCount =? 0 then None
      else Some (nth 0 filenames "",
                 if 1 <? nCount then nth 1 filenames "" else "")
  end.

(** Lines 114-119: [szHeader] after the read, as the string the checks
    see.  A full buffer loses its last byte to the terminator. *)
Definition szHeader_of (data : string) : string :=
  let nLen := Z.of_nat (String.length data) in
  c_str (if nLen =? 1000 then substring 0 999 data else data).

Definition ILI2_MARKER : string := "interlis.ch/INTERLIS2".

(** Lines 121-122, negated: the header looks like ILI2. *)
Definition header_is_ili2 (szHeader : string) : bool :=
  negb (negb (Ascii.eqb (at0 szHeader) "<"%char)
        || match strstr szHeader ILI2_MARKER with
           | None => true
           | Some _ => false
           end).

Definition open_failed_msg (pszNewName : string) : string :=
  "Failed to open ILI2 file `" ++ pszNewName ++ "'.".

Definition no_reader_msg (pszNewName : string) : string :=
  "File " ++ pszNewName ++ " appears to be ILI2 but the ILI2 reader cannot" ++ LF
  ++ "be instantiated, likely because Xerces support was not" ++ LF
  ++ "configured in.".

(** Lines 136-161. *)
Definition instantiate_reader (pszNewName osBasename osModelFilename : string)
  : M Z :=
  let r := new_ILI2Reader in
  emit (EvCreateILI2Reader (match r with Some _ => true | None => false end)) ;;
  assign (set_poReader r) ;;
  match r with
  | None => CPLError CE_Failure CPLE_AppDefined (no_reader_msg pszNewName) ;;
            ret FALSE
  | Some rd0 =>
      d <- this ;;
      rd1 <- (if negb (String.eqb osModelFilename "")
              then emit (EvReaderReadModel osModelFilename) ;;
                   let (rd, imd) := ILI2_ReadModel rd0 (poImdReader d) osModelFilename in
                   assign (set_poImdReader imd) ;; ret rd
              else ret rd0) ;;
      emit (EvSetSourceFile osBasename) ;;
      let rd2 := ILI2_SetSourceFile rd1 osBasename in
      emit (EvSaveClasses osBasename) ;;
      let rd3 := ILI2_SaveClasses rd2 osBasename in
      assign (set_poReader (Some rd3)) ;;
      emit EvGetLayers ;;
      assign (set_listLayer (ILI2_GetLayers rd3)) ;;
      for_each (ILI2_GetLayers rd3) (fun layer => emit (EvResetReading layer)) ;;
      ret TRUE
  end.

Definition Open (pszNewName : string) (papszOpenOptionsIn : list string)
  (bTestOpen : Z) : M Z :=
  match resolve_names pszNewName papszOpenOptionsIn with
  | None => ret FALSE
  | Some (osBasename, osModelFilename) =>
      assign (set_pszName (Some osBasename)) ;;
      fp <- VSIFOpenL osBasename "r" ;;
      match fp with
      | None =>
          (if bTestOpen =? 0
           then CPLError CE_Failure CPLE_OpenFailed (open_failed_msg pszNewName)
           else ret tt) ;;
          ret FALSE
      | Some fp =>
          looks_ili2 <- (if negb (bTestOpen =? 0)
                         then data <- VSIFReadL 1 1000 fp ;;
                              ret (header_is_ili2 (szHeader_of data))
                         else ret true) ;;
          if looks_ili2
          then VSIFCloseL fp ;;
               instantiate_reader pszNewName osBasename osModelFilename
          else VSIFCloseL fp ;; ret FALSE
      end
  end.

(** *** Create() *)

Definition no_model_msg : string :=
  "ILI2 Create(): model file not specified in destination filename.".

Definition create_failed_msg (pszName : string) : string :=
  "Failed to create XTF file " ++ pszName ++ ".".

Definition xml_prolog : string :=
  "<?xml version=" ++ DQ ++ "1.0" ++ DQ ++ " encoding=" ++ DQ ++ "utf-8" ++ DQ
  ++ " ?>" ++ LF.

Definition transfer_open : string :=
  "<TRANSFER xmlns=" ++ DQ ++ "http://www.interlis.ch/INTERLIS2.3" ++ DQ ++ ">"
  ++ LF.

Definition headersection_open : string :=
  "<HEADERSECTION SENDER=" ++ DQ ++ "OGR/GDAL " ++ GDALVersionInfo "RELEASE_NAME"
  ++ DQ ++ " VERSION=" ++ DQ ++ "2.3" ++ DQ ++ ">" ++ LF.

Definition models_open : string := "<MODELS>" ++ LF.
Definition models_close : string := "</MODELS>" ++ LF.
Definition headersection_close : string := "</HEADERSECTION>" ++ LF.
Definition datasection_open : string := "<DATASECTION>" ++ LF.

Definition model_entry (it : IliModelInfo) : string :=
  "<MODEL NAME=" ++ DQ ++ c_str (name it) ++ DQ ++ " URI=" ++ DQ ++ c_str (uri it)
  ++ DQ ++ " VERSION=" ++ DQ ++ c_str (version it) ++ DQ ++ "/>" ++ LF.

Definition basket_open (imd : ImdReader) : string :=
  let basketName := c_str (mainBasketName imd) in
  "<" ++ basketName ++ " BID=" ++ DQ ++ basketName ++ DQ ++ ">" ++ LF.

(** Lines 190-208: the output file is opened, after the name of a bare
    archive got its entry. *)
Definition open_output : M unit :=
  d <- this ;;
  let pszName0 := CPLStrdup (pszName d) in
  if strcmp0 pszName0 "/vsistdout/" || STARTS_WITH pszName0 "/vsigzip/"
  then fp <- VSIFOpenL pszName0 "wb" ;; assign (set_fpOutput fp)
  else if STARTS_WITH pszName0 "/vsizip/"
  then (if EQUAL (c_str (CPLGetExtensionSafe pszName0)) "zip"
        then assign (set_pszName
                       (Some (c_str (CPLFormFilenameSafe pszName0 "out.xtf" None))))
        else ret tt) ;;
       d' <- this ;;
       fp <- VSIFOpenL (CPLStrdup (pszName d')) "wb" ;; assign (set_fpOutput fp)
  else fp <- VSIFOpenL pszName0 "wb+" ;; assign (set_fpOutput fp).

(** Lines 220-243. *)
Definition write_headers (pszModelFilename : string) (fp : VSILFILE) : M unit :=
  d <- this ;;
  emit (EvImdReadModel pszModelFilename) ;;
  let imd := ImdReader_ReadModel (poImdReader d) pszModelFilename in
  assign (set_poImdReader imd) ;;
  VSIFPrintfL fp xml_prolog ;;
  VSIFPrintfL fp transfer_open ;;
  VSIFPrintfL fp headersection_open ;;
  VSIFPrintfL fp models_open ;;
  for_each (modelInfos imd) (fun it => VSIFPrintfL fp (model_entry it)) ;;
  VSIFPrintfL fp models_close ;;
  VSIFPrintfL fp headersection_close ;;
  VSIFPrintfL fp datasection_open ;;
  VSIFPrintfL fp (basket_open imd).

Definition Create (pszFilename : string) (papszOptions : list string) : M Z :=
  let filenames := CSLTokenizeString2 pszFilename "," 0 in
  assign (set_pszName (Some (CPLStrdup (nth_error filenames 0)))) ;;
  let pszModelFilename :=
    if 1 <? CSLCount filenames then nth_error filenames 1 else None in
  match pszModelFilename with
  | None => CPLError CE_Failure CPLE_AppDefined no_model_msg ;; ret FALSE
  | Some model =>
      open_output ;;
      d <- this ;;
      match fpOutput d with
      | None =>
          CPLError CE_Failure CPLE_OpenFailed
            (create_failed_msg (CPLStrdup (pszName d))) ;;
          ret FALSE
      | Some fp => write_headers model fp ;; ret TRUE
      end
  end.

(** *** ICreateLayer() *)

Definition adhoc_msg (pszLayerName : string) : string :=
  "Layer '" ++ pszLayerName ++ "' not found in model definition. "
  ++ "Creating adhoc layer".

Definition ICreateLayer (pszLayerName : string)
  (poGeomFieldDefn : option OGRGeomFieldDefn) (papszOptions : list string)
  : M (option OGRILI2Layer) :=
  d <- this ;;
  match fpOutput d with
  | None => ret None
  | Some _ =>
      let eType := match poGeomFieldDefn with
                   | Some g => GetType g
                   | None => wkbNone
                   end in
      let featureDefnInfo := GetFeatureDefnInfo (poImdReader d) pszLayerName in
      defn <- match GetTableDefnRef featureDefnInfo with
              | None =>
                  CPLError CE_Warning CPLE_AppDefined (adhoc_msg pszLayerName) ;;
                  ret (SetGeomType (new_OGRFeatureDefn pszLayerName) eType)
              | Some poTableDefn => ret poTableDefn
              end ;;
      let poLayer := mkLayer defn (poGeomFieldInfos featureDefnInfo) in
      assign (push_layer poLayer) ;;
      ret (Some poLayer)
  end.

(** *** TestCapability() *)

Definition TestCapability (pszCap : string) : M Z :=
  if EQUAL pszCap ODsCCreateLayer then ret TRUE
  else if EQUAL pszCap ODsCCurveGeometries then ret TRUE
  else if EQUAL pszCap ODsCZGeometries then ret TRUE
  else ret FALSE.

(** *** GetLayer() *)

(** Lines 310-316: the walk.  It returns the counter, the iterator (the
    rest of the list, empty at [end()]) and the number of turns of the loop. *)
Fixpoint GetLayer_walk (i iLayer : Z) (layerIt : list OGRLayer) (turns : nat)
  : Z * list OGRLayer * nat :=
  match layerIt with
  | [] => (i, layerIt, turns)
  | _ :: next =>
      if i <? iLayer then GetLayer_walk (i + 1) iLayer next (S turns)
      else (i, layerIt, turns)
  end.

Definition GetLayer (iLayer : Z) : M (option OGRILI2Layer) :=
  d <- this ;;
  let '(i, layerIt, _) := GetLayer_walk 0 iLayer (listLayer d) O in
  match layerIt with
  | tmpLayer :: _ => if i =? iLayer then ret (Some tmpLayer) else ret None
  | [] => ret None
  end.

End DataSource.

Arguments OGRILI2DataSource : clear implicits.
Arguments State : clear implicits.
Arguments M : clear implicits.

Notation "x <- c1 ;; c2" := (bind c1 (fun x => c2))
  (at level 61, c1 at next level, right associativity).
Notation "e1 ;; e2" := (bind e1 (fun _ => e2))
  (at level 61, right associativity).

(** ** A concrete platform

    Modelled from the spec: the port library, the virtual file system and
    the two readers are not part of this file.  This instance follows the
    address syntax of the spec ([<dataPath>,<modelPath>], split "into
    ordered parts"), its zip rule (the entry name is "appended" to the
    archive path) and its catalog (an ordered set of model descriptors and
    a mapping from table name to schema).  It is used to run the
    controller on concrete inputs; every general theorem below holds for
    all platforms. *)

Module Ref.

Definition is_delim (delims : string) (c : ascii) : bool :=
  match index 0 (String c EmptyString) delims with
  | Some _ => true
  | None => false
  end.

(** Tokens between delimiters, empty tokens dropped. *)
Fixpoint tokenize (delims : string) (s : string) (token : string) : list string :=
  match s with
  | EmptyString => if String.eqb token "" then [] else [token]
  | String c r =>
      if is_delim delims c
      then (if String.eqb token "" then tokenize delims r ""
            else token :: tokenize delims r "")
      else tokenize delims r (token ++ String c EmptyString)
  end.

(** The value of the first [KEY=value] entry. *)
Fixpoint fetch_name_value (l : list string) (key : string) : option string :=
  match l with
  | [] => None
  | e :: rest =>
      if EQUAL (substring 0 (String.length key) e) key
         && String.eqb (substring (String.length key) 1 e) "="
      then Some (substring (S (String.length key)) (String.length e) e)
      else fetch_name_value rest key
  end.

Definition is_sep (c : ascii) : bool :=
  Ascii.eqb c "/"%char || Ascii.eqb c "\"%char.

(** The text after the last character satisfying [p]; [None] without one. *)
Fixpoint after_last (p : ascii -> bool) (s : string) : option string :=
  match s with
  | EmptyString => None
  | String c r =>
      match after_last p r with
      | Some t => Some t
      | None => if p c then Some r else None
      end
  end.

Definition basename (s : string) : string :=
  match after_last is_sep s with
  | Some t => t
  | None => s
  end.

(** The text after the last dot of the file name, a leading dot apart;
    nothing when it is longer than ten bytes. *)
Definition extension (s : string) : string :=
  match basename s with
  | EmptyString => ""
  | String _ r =>
      match after_last (Ascii.eqb "."%char) r with
      | Some e => if (String.length e <=? 10)%nat then e else ""
      | None => ""
      end
  end.

Definition last_char (s : string) : ascii :=
  match get (Nat.pred (String.length s)) s with
  | Some c => c
  | None => NUL
  end.

Definition form_filename (path base : string) (ext : option string) : string :=
  let tail := base ++ CPLStrdup ext in
  if String.eqb path "" then tail
  else if is_sep (last_char path) then path ++ tail
  else path ++ "/" ++ tail.

(** The file system: the readable files with their bytes; a path is
    writable unless it lies under [/readonly/]. *)
Fixpoint lookup_file (files : list (string * string)) (path : string) (n : nat)
  : option VSILFILE :=
  match files with
  | [] => None
  | (p, _) :: rest => if String.eqb p path then Some n else lookup_file rest path (S n)
  end.

Definition fopen (files : list (string * string)) (path mode : string)
  : option VSILFILE :=
  if String.eqb mode "r" then lookup_file files path O
  else if STARTS_WITH path "/readonly/" then None
  else Some (List.length files).

Definition bytes (files : list (string * string)) (fp : VSILFILE) : string :=
  snd (nth fp files ("", "")).

(** The catalog the model file [roads.imd] describes; any other model
    file describes nothing. *)
Definition roads_table : FeatureDefnInfo :=
  mkFeatureDefnInfo
    (Some (mkFeatureDefn "Roads.Street" [mkField "Name" 4] [mkGeomField "Geometry" 2]))
    [("Geometry", "Polyline")].

Definition read_model (imd : ImdReader) (path : string) : ImdReader :=
  if String.eqb path "roads.imd"
  then mkImdReader (iliVersion imd)
         [mkModelInfo "Units" "2005-06-06" "http://www.interlis.ch/models";
          mkModelInfo "Roads" "2016-03-07" "http://www.example.org/roads"]
         "Roads.Streets" [roads_table]
  else mkImdReader (iliVersion imd) [] "OGR.OGR" [].

(** The entry of the table of that name, the last one when several match. *)
Fixpoint feature_defn_info (l : list FeatureDefnInfo) (layer : string)
  (found : FeatureDefnInfo) : FeatureDefnInfo :=
  match l with
  | [] => found
  | it :: rest =>
      match GetTableDefnRef it with
      | Some fdefn =>
          if EQUAL (GetName fdefn) layer then feature_defn_info rest layer it
          else feature_defn_info rest layer found
      | None => feature_defn_info rest layer found
      end
  end.

(** A transfer reader: the file it reads and the layers it found. *)
Record Reader : Type := mkReader {
  source : option string;
  layers : list OGRLayer
}.

Definition street_layer : OGRLayer :=
  mkLayer (mkFeatureDefn "Roads.Street" [mkField "Name" 4] [mkGeomField "Geometry" 2])
    [("Geometry", "Polyline")].

Definition sign_layer : OGRLayer :=
  mkLayer (mkFeatureDefn "Roads.Sign" [mkField "Kind" 4] [mkGeomField "Position" 1])
    [("Position", "Coord")].

Definition save_classes (r : Reader) (path : string) : Reader :=
  mkReader (source r) [street_layer; sign_layer].

#[local] Instance platform (files : list (string * string)) (xerces : bool)
  : Platform := {
  CSLTokenizeString2 := fun s delims _ => tokenize delims s "";
  CSLFetchNameValue := fetch_name_value;
  CPLGetExtensionSafe := extension;
  CPLFormFilenameSafe := form_filename;
  GDALVersionInfo := fun _ => "3.11.0";
  vsi_fopen := fopen files;
  vsi_bytes := bytes files;
  ImdReader_new := fun v => mkImdReader v [] "" [];
  ImdReader_ReadModel := read_model;
  GetFeatureDefnInfo := fun imd layer =>
    feature_defn_info (featureDefnInfos imd) layer (mkFeatureDefnInfo None []);
  IILI2Reader := Reader;
  new_ILI2Reader := if xerces then Some (mkReader None []) else None;
  ILI2_ReadModel := fun r imd path => (r, read_model imd path);
  ILI2_SetSourceFile := fun r path => mkReader (Some path) (layers r);
  ILI2_SaveClasses := save_classes;
  ILI2_GetLayers := layers
}.

Definition xmlns_header : string :=
  "<TRANSFER xmlns=" ++ DQ ++ "http://www.interlis.ch/INTERLIS2.3" ++ DQ ++ ">".

(** Two transfer files: one that starts with the envelope tag, one with a
    blank and a line feed before it. *)
Definition files : list (string * string) :=
  [("sample.xtf", xmlns_header ++ LF);
   ("indented.xtf", " " ++ LF ++ xmlns_header ++ LF)].

End Ref.

(** ** Observations on a trace and on a lifetime *)

Section Observations.

Context {P : Platform}.

(** The texts written to [fp], oldest first, and the document they make. *)
Definition printed (fp : VSILFILE) (tr : list Event) : list string :=
  flat_map (fun e => match e with
                     | EvVSIFPrintfL fp' text => if Nat.eqb fp' fp then [text] else []
                     | _ => []
                     end) tr.

Definition document (fp : VSILFILE) (tr : list Event) : string :=
  String.concat "" (printed fp tr).

(** The files opened, with their access modes. *)
Definition opened (tr : list Event) : list (string * string) :=
  flat_map (fun e => match e with
                     | EvVSIFOpenL path mode _ => [(path, mode)]
                     | _ => []
                     end) tr.

(** Events that touch a file: opening, reading, writing, closing, and the
    model reader loading a model file. *)
Definition is_file_io (e : Event) : bool :=
  match e with
  | EvVSIFOpenL _ _ _ | EvVSIFReadL _ _ _ _ | EvVSIFPrintfL _ _ | EvVSIFCloseL _
  | EvImdReadModel _ | EvReaderReadModel _ | EvSetSourceFile _ | EvSaveClasses _ => true
  | _ => false
  end.

Definition is_error (e : Event) : bool :=
  match e with
  | EvCPLError _ _ _ => true
  | _ => false
  end.

Definition is_printf (e : Event) : bool :=
  match e with
  | EvVSIFPrintfL _ _ => true
  | _ => false
  end.

(** The path and the access mode that lines 190-208 open for a name. *)
Definition output_target (pszName0 : string) : string * string :=
  if strcmp0 pszName0 "/vsistdout/" || STARTS_WITH pszName0 "/vsigzip/"
  then (pszName0, "wb")
  else if STARTS_WITH pszName0 "/vsizip/"
  then (if EQUAL (c_str (CPLGetExtensionSafe pszName0)) "zip"
        then c_str (CPLFormFilenameSafe pszName0 "out.xtf" None)
        else pszName0, "wb")
  else (pszName0, "wb+").

(** The controller went on to instantiate the transfer reader: it took
    the file for ILI2. *)
Definition is_reader_creation (e : Event) : bool :=
  match e with
  | EvCreateILI2Reader _ => true
  | _ => false
  end.

Definition taken_for_ili2 (tr : list Event) : bool := existsb is_reader_creation tr.

(** The framing [Create] writes and the framing the destructor writes. *)
Definition opening_framing (imd : ImdReader) : list string :=
  ([xml_prolog; transfer_open; headersection_open; models_open]
   ++ map model_entry (modelInfos imd)
   ++ [models_close; headersection_close; datasection_open; basket_open imd])%list.

Definition closing_framing (imd : ImdReader) : list string :=
  [basket_close imd; datasection_close; transfer_close].

(** A write of the data-section close tag or of the envelope close tag. *)
Definition is_close_tag_write (e : Event) : bool :=
  match e with
  | EvVSIFPrintfL _ text =>
      String.eqb text datasection_close || String.eqb text transfer_close
  | _ => false
  end.

(** The calls a client makes between opening and destruction. *)
Inductive Call : Type :=
| CallICreateLayer (pszLayerName : string) (poGeomFieldDefn : option OGRGeomFieldDefn)
    (papszOptions : list string)
| CallGetLayer (iLayer : Z)
| CallTestCapability (pszCap : string).

Definition call (c : Call) : M P unit :=
  match c with
  | CallICreateLayer n g o => ICreateLayer n g o ;; ret tt
  | CallGetLayer i => GetLayer i ;; ret tt
  | CallTestCapability cap => TestCapability cap ;; ret tt
  end.

Definition calls (l : list Call) : M P unit := for_each l call.

(** How a container comes to life. *)
Inductive Opening : Type :=
| ByOpen (pszNewName : string) (papszOpenOptionsIn : list string) (bTestOpen : Z)
| ByCreate (pszFilename : string) (papszOptions : list string).

Definition opening (o : Opening) : M P Z :=
  match o with
  | ByOpen n opts t => Open n opts t
  | ByCreate n opts => Create n opts
  end.

Definition is_create (o : Opening) : bool :=
  match o with
  | ByCreate _ _ => true
  | ByOpen _ _ _ => false
  end.

(** Construction, [Open] or [Create], any calls, destruction.  The result
    is what the opening returned, with the state before the destructor
    and the state after it. *)
Definition lifetime (o : Opening) (l : list Call) : Z * State P * State P :=
  let (ok, st1) := opening o fresh in
  let (_, st2) := calls l st1 in
  let (_, st3) := destructor st2 in
  (ok, st2, st3).

(** *** The reading of the spec

    The header test as the spec words it: "first non-whitespace byte must
    be [<]; the probed byte window must contain the substring identifying
    the format's namespace". *)
Definition is_space (c : ascii) : bool :=
  let n := nat_of_ascii c in
  Nat.eqb n 32 || (Nat.leb 9 n && Nat.leb n 13).

Fixpoint first_non_whitespace (s : string) : option ascii :=
  match s with
  | EmptyString => None
  | String c r => if is_space c then first_non_whitespace r else Some c
  end.

Definition spec_header_match (window : string) : bool :=
  match first_non_whitespace window with
  | Some c => Ascii.eqb c "<"%char
  | None => false
  end
  && match strstr window ILI2_MARKER with
     | Some _ => true
     | None => false
     end.

(** The registry as the spec words it: the layers "created via layer
    creation or discovered at open". *)
Definition spec_registry (d : OGRILI2DataSource P) : list OGRLayer :=
  (listLayer d ++ papoLayers d)%list.

End Observations.

(** ** Concrete inputs *)

Module Concrete.

(** The concrete platform with its two transfer files and a reader. *)
Definition P : Platform := Ref.platform Ref.files true.

(** The same files where the transfer reader cannot be built. *)
Definition P_no_reader : Platform := Ref.platform Ref.files false.

(** A container created on [roads.imd], then asked for one layer of the
    catalog and one layer the catalog does not have. *)
Definition created : Z * State P * State P :=
  @lifetime P (ByCreate "out.xtf,roads.imd" [])
    [CallICreateLayer "Roads.Street" None [];
     CallICreateLayer "Lamps" (Some (mkGeomField "Position" 1)) []].

Definition units : IliModelInfo :=
  mkModelInfo "Units" "2005-06-06" "http://www.interlis.ch/models".

Definition roads : IliModelInfo :=
  mkModelInfo "Roads" "2016-03-07" "http://www.example.org/roads".

End Concrete.

(** ** Further observations *)

Section FurtherObservations.

Context {P : Platform}.

Definition is_open (e : Event) : bool :=
  match e with
  | EvVSIFOpenL _ _ _ => true
  | _ => false
  end.

Definition is_read (e : Event) : bool :=
  match e with
  | EvVSIFReadL _ _ _ _ => true
  | _ => false
  end.

Definition is_close (e : Event) : bool :=
  match e with
  | EvVSIFCloseL _ => true
  | _ => false
  end.

Definition is_model_load (e : Event) : bool :=
  match e with
  | EvImdReadModel _ | EvReaderReadModel _ => true
  | _ => false
  end.

Definition is_reset (e : Event) : bool :=
  match e with
  | EvResetReading _ => true
  | _ => false
  end.

(** The layer creations among some calls. *)
Definition is_creation (c : Call) : bool :=
  match c with
  | CallICreateLayer _ _ _ => true
  | _ => false
  end.

(** The handles that opens returned, and the handles that were closed,
    oldest first. *)
Definition opened_handles (tr : list Event) : list VSILFILE :=
  flat_map (fun e => match e with
                     | EvVSIFOpenL _ _ (Some fp) => [fp]
                     | _ => []
                     end) tr.

Definition closed_handles (tr : list Event) : list VSILFILE :=
  flat_map (fun e => match e with
                     | EvVSIFCloseL fp => [fp]
                     | _ => []
                     end) tr.

(** The count of layers is the length of the array of layers. *)
Definition layers_counted (d : OGRILI2DataSource P) : Prop :=
  nLayers d = Z.of_nat (List.length (papoLayers d)).

(** The header read in probing mode from a file of these bytes, as the
    checks see it (lines 114-119). *)
Definition probed_header (bytes : string) : string :=
  szHeader_of (substring 0 (Z.to_nat (1 * 1000)) bytes).

(** Whether a character is in a text, and the number of places of a
    text where a given text starts. *)
Fixpoint has_char (c : ascii) (s : string) : bool :=
  match s with
  | EmptyString => false
  | String x r => Ascii.eqb x c || has_char c r
  end.

Fixpoint occurrences (needle s : string) : nat :=
  match s with
  | EmptyString => O
  | String _ r => ((if STARTS_WITH s needle then 1 else 0) + occurrences needle r)%nat
  end.

(** A text that starts with [<] and has no other [<]. *)
Definition is_tag_text (p : string) : bool :=
  match p with
  | EmptyString => false
  | String c r => Ascii.eqb c "<"%char && negb (has_char "<"%char r)
  end.

End FurtherObservations.

(** Modelled from the spec: a second file system for the concrete
    platform, with an empty file, a file that holds a NUL byte before the
    envelope tag, and a transfer file whose name has a comma. *)
Module Edge.

Definition files : list (string * string) :=
  [("empty.xtf", "");
   ("nul.xtf", "<" ++ String NUL Ref.xmlns_header);
   ("a,b.xtf", Ref.xmlns_header ++ LF);
   ("sample.xtf", Ref.xmlns_header ++ LF)].

Definition P : Platform := Ref.platform files true.

Definition P_no_reader : Platform := Ref.platform files false.

End Edge.

(** * Properties *)

Module CStrFacts.


Lemma STARTS_WITH_iff a b :
  STARTS_WITH a b = true <-> exists post, a = b ++ post.
Proof.
  revert a; induction b as [|cb rb IH]; intros a; simpl.
  - split; [intros _; now exists a | reflexivity].
  - destruct a as [|ca ra].
    + split; [discriminate | intros [post H]; discriminate].
    + rewrite andb_true_iff, Ascii.eqb_eq, IH. split.
      * intros [-> [post ->]]. now exists post.
      * intros [post H]. injection H as -> ->. split; [reflexivity | now exists post].
Qed.

Lemma append_assoc (a b c : string) : (a ++ b) ++ c = a ++ (b ++ c).
Proof. induction a as [|x a IH]; simpl; [reflexivity | now rewrite IH]. Qed.

Lemma strstr_Some haystack needle k :
  strstr haystack needle = Some k ->
  exists pre post,
    haystack = pre ++ needle ++ post /\ String.length pre = k.
Proof.
  revert k; induction haystack as [|c rest IH]; intros k; simpl.
  - destruct (STARTS_WITH "" needle) eqn:E; [|discriminate].
    intros [= <-]. apply STARTS_WITH_iff in E as [post E].
    exists "", post. now split.
  - destruct (STARTS_WITH (String c rest) needle) eqn:E.
    + intros [= <-]. apply STARTS_WITH_iff in E as [post E].
      exists "", post. now split.
    + destruct (strstr rest needle) as [j|] eqn:R; [|discriminate].
      simpl. intros [= <-]. destruct (IH j eq_refl) as (pre & post & -> & L).
      exists (String c pre), post. simpl. now rewrite L.
Qed.

Lemma strstr_None haystack needle :
  strstr haystack needle = None ->
  forall pre post, haystack <> pre ++ needle ++ post.
Proof.
  induction haystack as [|c rest IH]; simpl.
  - destruct (STARTS_WITH "" needle) eqn:E; [discriminate|].
    intros _ pre post H. destruct pre; [|discriminate]. simpl in H.
    assert (STARTS_WITH "" needle = true) by (apply STARTS_WITH_iff; eauto).
    congruence.
  - destruct (STARTS_WITH (String c rest) needle) eqn:E; [discriminate|].
    destruct (strstr rest needle) eqn:R; [discriminate|].
    intros _ pre post H. destruct pre as [|x pre]; simpl in H.
    + assert (STARTS_WITH (String c rest) needle = true)
        by (apply STARTS_WITH_iff; eauto).
      congruence.
    + injection H as _ H. now apply (IH eq_refl pre post).
Qed.

(** [strstr] finds the needle exactly when it occurs somewhere. *)
Lemma strstr_found_iff haystack needle :
  strstr haystack needle <> None <->
  exists pre post, haystack = pre ++ needle ++ post.
Proof.
  split.
  - destruct (strstr haystack needle) as [k|] eqn:E; [|congruence].
    intros _. destruct (strstr_Some _ _ _ E) as (pre & post & H & _). eauto.
  - intros (pre & post & H) E. exact (strstr_None _ _ E pre post H).
Qed.

Lemma EQUAL_iff a b : EQUAL a b = true <-> lower a = lower b.
Proof.
  revert b; induction a as [|ca ra IH]; intros [|cb rb]; simpl;
    try (split; [discriminate | discriminate]); try tauto.
  rewrite andb_true_iff, Ascii.eqb_eq, IH. split.
  - intros [-> ->]; reflexivity.
  - intros [= -> ->]; now split.
Qed.

Lemma EQUAL_refl a : EQUAL a a = true.
Proof. now apply EQUAL_iff. Qed.

Lemma c_str_idem s : c_str (c_str s) = c_str s.
Proof.
  induction s as [|c r IH]; simpl; [reflexivity|].
  destruct (Ascii.eqb c NUL) eqn:E; simpl; [reflexivity|].
  now rewrite E, IH.
Qed.

End CStrFacts.

Section Properties.

Context {P : Platform}.

Implicit Types (st : State P) (d : OGRILI2DataSource P) (tr : list Event).

(** ** The monad *)

Lemma state_eta st : mkState (self st) (trace st) = st.
Proof. now destruct st. Qed.

Lemma bind_run {A B : Type} (c : M P A) (k : A -> M P B) st :
  bind c k st = k (fst (c st)) (snd (c st)).
Proof. unfold bind. now destruct (c st). Qed.

Lemma for_each_emit {A : Type} (g : A -> Event) (l : list A) st :
  for_each l (fun x => emit (g x)) st
  = (tt, mkState (self st) (trace st ++ map g l)%list).
Proof.
  revert st; induction l as [|x l IH]; intros st; simpl.
  - unfold ret. now rewrite app_nil_r, state_eta.
  - unfold bind at 1. unfold emit at 1. rewrite IH. simpl.
    now rewrite <- app_assoc.
Qed.

Lemma printed_app fp tr1 tr2 :
  printed fp (tr1 ++ tr2)%list = (printed fp tr1 ++ printed fp tr2)%list.
Proof. unfold printed. apply flat_map_app. Qed.

Lemma printed_map_printf fp (texts : list string) :
  printed fp (map (EvVSIFPrintfL fp) texts) = texts.
Proof.
  induction texts as [|t texts IH]; simpl; [reflexivity|].
  now rewrite Nat.eqb_refl, IH.
Qed.

Lemma opened_app tr1 tr2 :
  opened (tr1 ++ tr2)%list = (opened tr1 ++ opened tr2)%list.
Proof. unfold opened. apply flat_map_app. Qed.

Lemma opened_map_printf fp (texts : list string) :
  opened (map (EvVSIFPrintfL fp) texts) = [].
Proof. induction texts as [|t texts IH]; simpl; auto. Qed.

(** ** GetLayer *)

(** The walk stops where it started when the index is not ahead of the
    counter. *)
Lemma GetLayer_walk_stay (l : list OGRLayer) i iLayer turns :
  iLayer <= i -> GetLayer_walk i iLayer l turns = (i, l, turns).
Proof.
  intros H. destruct l as [|x l]; simpl; [reflexivity|].
  destruct (i <? iLayer) eqn:E; [apply Z.ltb_lt in E; lia | reflexivity].
Qed.

(** The walk takes as many turns as the index is ahead, or as there are
    layers; the counter never passes the index. *)
Lemma GetLayer_walk_spec (l : list OGRLayer) i iLayer turns :
  i <= iLayer ->
  let k := Nat.min (Z.to_nat (iLayer - i)) (List.length l) in
  GetLayer_walk i iLayer l turns = (i + Z.of_nat k, skipn k l, (turns + k)%nat).
Proof.
  revert i turns; induction l as [|x l IH]; intros i turns H; simpl.
  - rewrite Nat.min_0_r. simpl. now rewrite Z.add_0_r, Nat.add_0_r.
  - destruct (i <? iLayer) eqn:E.
    + apply Z.ltb_lt in E. rewrite IH by lia.
      replace (Z.to_nat (iLayer - i)) with (S (Z.to_nat (iLayer - (i + 1)))) by lia.
      rewrite <- Nat.succ_min_distr. simpl skipn.
      f_equal; [f_equal; lia | lia].
    + apply Z.ltb_ge in E. replace (iLayer - i) with 0 by lia. simpl.
      now rewrite Z.add_0_r, Nat.add_0_r.
Qed.

Lemma skipn_nth_error {A : Type} (l : list A) (n : nat) :
  match skipn n l with
  | x :: _ => nth_error l n = Some x
  | [] => nth_error l n = None
  end.
Proof.
  revert n; induction l as [|a l IH]; intros [|n]; simpl; try reflexivity.
  apply IH.
Qed.

(** What [GetLayer] returns, for every index. *)
Lemma GetLayer_value iLayer st :
  GetLayer iLayer st
  = (if iLayer <? 0 then None
     else nth_error (listLayer (self st)) (Z.to_nat iLayer), st).
Proof.
  unfold GetLayer, bind, this.
  destruct (iLayer <? 0) eqn:E.
  - apply Z.ltb_lt in E. rewrite GetLayer_walk_stay by lia.
    destruct (listLayer (self st)); [reflexivity|].
    destruct (0 =? iLayer) eqn:E0; [apply Z.eqb_eq in E0; lia | reflexivity].
  - apply Z.ltb_ge in E. rewrite GetLayer_walk_spec by lia.
    rewrite Z.sub_0_r, Z.add_0_l.
    set (l := listLayer (self st)).
    destruct (Nat.le_gt_cases (Z.to_nat iLayer) (List.length l)) as [L|L].
    + rewrite Nat.min_l by exact L.
      pose proof (skipn_nth_error l (Z.to_nat iLayer)) as S.
      destruct (skipn (Z.to_nat iLayer) l); rewrite S; [reflexivity|].
      rewrite Z2Nat.id by lia. now rewrite Z.eqb_refl.
    + rewrite Nat.min_r by lia. rewrite skipn_all.
      symmetry. unfold ret. f_equal. apply nth_error_None. lia.
Qed.

(** ** Create *)

Lemma open_output_run st pszName0 :
  pszName (self st) = Some pszName0 ->
  let (path, mode) := output_target pszName0 in
  open_output st
  = (tt, mkState (set_fpOutput (vsi_fopen path mode)
                    (set_pszName (Some path) (self st)))
           (trace st ++ [EvVSIFOpenL path mode (vsi_fopen path mode)])%list).
Proof.
  intros H. destruct st as [d tr]. destruct d; simpl in H; subst.
  unfold output_target, open_output, bind, this. cbn [self pszName CPLStrdup].
  destruct (strcmp0 pszName0 "/vsistdout/" || STARTS_WITH pszName0 "/vsigzip/").
  - reflexivity.
  - destruct (STARTS_WITH pszName0 "/vsizip/"); [|reflexivity].
    destruct (EQUAL (c_str (CPLGetExtensionSafe pszName0)) "zip"); reflexivity.
Qed.

Lemma write_headers_run model fp st :
  let imd := ImdReader_ReadModel (poImdReader (self st)) model in
  write_headers model fp st
  = (tt, mkState (set_poImdReader imd (self st))
           (trace st ++ EvImdReadModel model
                        :: map (EvVSIFPrintfL fp) (opening_framing imd))%list).
Proof.
  unfold write_headers, bind, this, VSIFPrintfL. simpl.
  rewrite for_each_emit. unfold emit. simpl. unfold opening_framing.
  repeat (rewrite <- app_assoc; simpl). rewrite map_app, map_map. reflexivity.
Qed.

(** [Create] run symbolically: its three ways out. *)
Lemma Create_run pszFilename papszOptions st :
  let filenames := CSLTokenizeString2 pszFilename "," 0 in
  let pszName0 := CPLStrdup (nth_error filenames 0) in
  Create pszFilename papszOptions st
  = match (if 1 <? CSLCount filenames then nth_error filenames 1 else None) with
    | None =>
        (FALSE, mkState (set_pszName (Some pszName0) (self st))
                  (trace st ++ [EvCPLError CE_Failure CPLE_AppDefined no_model_msg])%list)
    | Some model =>
        let (path, mode) := output_target pszName0 in
        let d1 := set_fpOutput (vsi_fopen path mode)
                    (set_pszName (Some path) (self st)) in
        match vsi_fopen path mode with
        | None =>
            (FALSE, mkState d1
                      (trace st ++ [EvVSIFOpenL path mode None;
                                    EvCPLError CE_Failure CPLE_OpenFailed
                                      (create_failed_msg path)])%list)
        | Some fp =>
            let imd := ImdReader_ReadModel (poImdReader (self st)) model in
            (TRUE, mkState (set_poImdReader imd d1)
                     (trace st ++ EvVSIFOpenL path mode (Some fp)
                                  :: EvImdReadModel model
                                  :: map (EvVSIFPrintfL fp) (opening_framing imd))%list)
        end
    end.
Proof.
  intros filenames pszName0. unfold Create. fold filenames. fold pszName0.
  destruct (if 1 <? CSLCount filenames then nth_error filenames 1 else None)
    as [model|]; [|reflexivity].
  unfold bind at 1. unfold assign at 1.
  unfold bind at 1.
  pose proof (open_output_run
                (mkState (set_pszName (Some pszName0) (self st)) (trace st))
                pszName0 eq_refl) as R.
  destruct (output_target pszName0) as [path mode]. rewrite R. clear R.
  unfold bind at 1. unfold this at 1. cbn [self fpOutput set_fpOutput].
  destruct (vsi_fopen path mode) as [fp|].
  - unfold bind. rewrite write_headers_run. unfold ret. cbn [self trace].
    rewrite <- app_assoc. reflexivity.
  - unfold bind, CPLError, emit, ret. cbn.
    rewrite <- app_assoc. reflexivity.
Qed.

(** ** The destructor *)

Lemma destructor_run st :
  destructor st
  = (tt, match fpOutput (self st) with
         | Some fp =>
             mkState (self st)
               (trace st ++ map (EvVSIFPrintfL fp) (closing_framing (poImdReader (self st)))
                         ++ [EvVSIFCloseL fp])%list
         | None => st
         end).
Proof.
  unfold destructor, bind, this. destruct (fpOutput (self st)) as [fp|]; [|reflexivity].
  unfold VSIFPrintfL, VSIFCloseL, emit. simpl.
  repeat (rewrite <- app_assoc; simpl). reflexivity.
Qed.

(** ** ICreateLayer *)

Lemma ICreateLayer_run pszLayerName poGeomFieldDefn papszOptions st :
  ICreateLayer pszLayerName poGeomFieldDefn papszOptions st
  = match fpOutput (self st) with
    | None => (None, st)
    | Some _ =>
        let eType := match poGeomFieldDefn with
                     | Some g => GetType g
                     | None => wkbNone
                     end in
        let info := GetFeatureDefnInfo (poImdReader (self st)) pszLayerName in
        match GetTableDefnRef info with
        | None =>
            let poLayer := mkLayer (SetGeomType (new_OGRFeatureDefn pszLayerName) eType)
                             (poGeomFieldInfos info) in
            (Some poLayer,
             mkState (push_layer poLayer (self st))
               (trace st ++ [EvCPLError CE_Warning CPLE_AppDefined
                               (adhoc_msg pszLayerName)])%list)
        | Some poTableDefn =>
            let poLayer := mkLayer poTableDefn (poGeomFieldInfos info) in
            (Some poLayer, mkState (push_layer poLayer (self st)) (trace st))
        end
    end.
Proof.
  unfold ICreateLayer, bind, this.
  destruct (fpOutput (self st)); [|reflexivity].
  destruct (GetTableDefnRef _); reflexivity.
Qed.

(** ** TestCapability *)

Lemma TestCapability_run pszCap st :
  TestCapability pszCap st
  = (if EQUAL pszCap ODsCCreateLayer || EQUAL pszCap ODsCCurveGeometries
        || EQUAL pszCap ODsCZGeometries
     then TRUE else FALSE, st).
Proof.
  unfold TestCapability.
  destruct (EQUAL pszCap ODsCCreateLayer); [reflexivity|].
  destruct (EQUAL pszCap ODsCCurveGeometries); [reflexivity|].
  destruct (EQUAL pszCap ODsCZGeometries); reflexivity.
Qed.

(** ** Calls between opening and destruction *)

(** A call leaves the output stream, the catalog and the discovered layers
    as they are, and adds nothing but warnings to the trace. *)
Lemma call_frame c st :
  fpOutput (self (snd (call c st))) = fpOutput (self st)
  /\ poImdReader (self (snd (call c st))) = poImdReader (self st)
  /\ listLayer (self (snd (call c st))) = listLayer (self st)
  /\ exists evs, trace (snd (call c st)) = (trace st ++ evs)%list
                 /\ forallb is_error evs = true.
Proof.
  destruct c as [n g o|i|cap]; unfold call, bind.
  - rewrite ICreateLayer_run. destruct (fpOutput (self st)) eqn:F.
    + cbv zeta.
      destruct (GetTableDefnRef (GetFeatureDefnInfo (poImdReader (self st)) n));
        simpl; repeat split; auto.
      * exists []. now rewrite app_nil_r.
      * eexists. split; reflexivity.
    + simpl. repeat split; auto. exists []. now rewrite app_nil_r.
  - rewrite GetLayer_value. simpl. repeat split; auto.
    exists []. now rewrite app_nil_r.
  - rewrite TestCapability_run. simpl. repeat split; auto.
    exists []. now rewrite app_nil_r.
Qed.

Lemma calls_frame l st :
  fpOutput (self (snd (calls l st))) = fpOutput (self st)
  /\ poImdReader (self (snd (calls l st))) = poImdReader (self st)
  /\ listLayer (self (snd (calls l st))) = listLayer (self st)
  /\ exists evs, trace (snd (calls l st)) = (trace st ++ evs)%list
                 /\ forallb is_error evs = true.
Proof.
  revert st; induction l as [|c l IH]; intros st.
  - simpl. repeat split; auto. exists []. now rewrite app_nil_r.
  - unfold calls in *. simpl for_each. rewrite !bind_run.
    destruct (call_frame c st) as (F1 & I1 & L1 & evs1 & T1 & E1).
    destruct (IH (snd (call c st))) as (F2 & I2 & L2 & evs2 & T2 & E2).
    split; [congruence|]. split; [congruence|]. split; [congruence|].
    exists (evs1 ++ evs2)%list. rewrite T2, T1, <- app_assoc.
    split; [reflexivity|]. rewrite forallb_app. now rewrite E1, E2.
Qed.

Lemma printed_errors fp evs : forallb is_error evs = true -> printed fp evs = [].
Proof.
  induction evs as [|e evs IH]; simpl; [reflexivity|].
  intros H. apply andb_true_iff in H as [He H]. rewrite (IH H).
  destruct e; try discriminate. reflexivity.
Qed.

Lemma existsb_app_false {A : Type} (p : A -> bool) l1 l2 :
  existsb p l1 = false -> existsb p l2 = false -> existsb p (l1 ++ l2)%list = false.
Proof. intros H1 H2. now rewrite existsb_app, H1, H2. Qed.

Lemma errors_no (p : Event -> bool) evs :
  (forall e, is_error e = true -> p e = false) ->
  forallb is_error evs = true -> existsb p evs = false.
Proof.
  intros Hp. induction evs as [|e evs IH]; simpl; [reflexivity|].
  intros H. apply andb_true_iff in H as [He H]. now rewrite (Hp e He), (IH H).
Qed.

(** ** Open *)

Lemma bind_emit {B : Type} (e : Event) (k : unit -> M P B) st :
  bind (emit e) k st = k tt (mkState (self st) (trace st ++ [e])%list).
Proof. reflexivity. Qed.

Lemma bind_assign {B : Type} (f : OGRILI2DataSource P -> OGRILI2DataSource P)
  (k : unit -> M P B) st :
  bind (assign f) k st = k tt (mkState (f (self st)) (trace st)).
Proof. reflexivity. Qed.

Lemma bind_this {B : Type} (k : OGRILI2DataSource P -> M P B) st :
  bind this k st = k (self st) st.
Proof. reflexivity. Qed.

Lemma bind_ret {A B : Type} (a : A) (k : A -> M P B) st : bind (ret a) k st = k a st.
Proof. reflexivity. Qed.

Lemma bind_bind {A B C : Type} (c : M P A) (k : A -> M P B) (h : B -> M P C) st :
  bind (bind c k) h st = bind c (fun a => bind (k a) h) st.
Proof. unfold bind. now destruct (c st). Qed.

Ltac step :=
  repeat (rewrite ?bind_bind, ?bind_emit, ?bind_assign, ?bind_this, ?bind_ret;
          cbn [self trace poImdReader fpOutput listLayer pszName poReader
               set_poReader set_pszName set_listLayer set_poImdReader
               set_fpOutput]).

Lemma substring_length (s : string) (m : nat) :
  String.length (substring 0 m s) = Nat.min m (String.length s).
Proof.
  revert m; induction s as [|c s IH]; intros [|m]; simpl; try reflexivity.
  now rewrite IH.
Qed.

Lemma substring_all (s : string) (m : nat) :
  (String.length s <= m)%nat -> substring 0 m s = s.
Proof.
  revert m; induction s as [|c s IH]; intros [|m]; simpl; try reflexivity.
  - lia.
  - intros H. rewrite IH by lia. reflexivity.
Qed.

Lemma substring_substring (s : string) (n m : nat) :
  (n <= m)%nat -> substring 0 n (substring 0 m s) = substring 0 n s.
Proof.
  revert n m; induction s as [|c s IH]; intros [|n] [|m] H; simpl; try reflexivity.
  - lia.
  - rewrite IH by lia. reflexivity.
Qed.

(** The header the checks see is the first 999 bytes of the file, cut at
    the first NUL. *)
Lemma szHeader_window (bytes : string) :
  szHeader_of (substring 0 (Z.to_nat (1 * 1000)) bytes)
  = c_str (substring 0 999 bytes).
Proof.
  unfold szHeader_of. change (Z.to_nat (1 * 1000)) with (S 999).
  rewrite substring_length. f_equal.
  destruct (Z.of_nat (Nat.min (S 999) (String.length bytes)) =? 1000) eqn:E.
  - apply substring_substring. lia.
  - apply Z.eqb_neq in E.
    assert (String.length bytes <= 999)%nat by lia.
    rewrite !substring_all by lia. reflexivity.
Qed.

Lemma existsb_reset (p : Event -> bool) (l : list OGRLayer) :
  (forall layer, p (EvResetReading layer) = false) ->
  existsb p (map EvResetReading l) = false.
Proof.
  intros H. induction l as [|x l IH]; simpl; [reflexivity|]. now rewrite H, IH.
Qed.

(** The reader is instantiated first; nothing is written; the output
    stream is not touched. *)
Lemma instantiate_reader_run pszNewName osBasename osModelFilename st :
  exists d' evs,
    instantiate_reader pszNewName osBasename osModelFilename st
    = (match new_ILI2Reader with Some _ => TRUE | None => FALSE end,
       mkState d'
         (trace st ++ EvCreateILI2Reader
                        (match new_ILI2Reader with Some _ => true | None => false end)
                      :: evs)%list)
    /\ fpOutput d' = fpOutput (self st)
    /\ existsb is_printf evs = false
    /\ (new_ILI2Reader = None ->
        evs = [EvCPLError CE_Failure CPLE_AppDefined (no_reader_msg pszNewName)])
    /\ (new_ILI2Reader <> None ->
        existsb is_error evs = false
        /\ exists rd, poReader d' = Some rd /\ listLayer d' = ILI2_GetLayers rd).
Proof.
  unfold instantiate_reader. destruct new_ILI2Reader as [rd0|].
  - destruct (negb (String.eqb osModelFilename "")).
    + destruct (ILI2_ReadModel rd0 (poImdReader (self st)) osModelFilename)
        as [rd imd] eqn:R.
      step. rewrite R. step. rewrite bind_run, for_each_emit. unfold ret. cbn [fst snd self trace].
      eexists. eexists. split.
      { repeat (rewrite <- app_assoc; simpl). reflexivity. }
      split; [reflexivity|]. split.
      { simpl. apply existsb_reset. reflexivity. }
      split; [discriminate|]. intros _. split.
      { simpl. apply existsb_reset. reflexivity. }
      eexists. split; reflexivity.
    + step. rewrite bind_run, for_each_emit. unfold ret. cbn [fst snd self trace].
      eexists. eexists. split.
      { repeat (rewrite <- app_assoc; simpl). reflexivity. }
      split; [reflexivity|]. split.
      { simpl. apply existsb_reset. reflexivity. }
      split; [discriminate|]. intros _. split.
      { simpl. apply existsb_reset. reflexivity. }
      eexists. split; reflexivity.
  - step. unfold CPLError. step. unfold ret.
    eexists. eexists. split.
    { repeat (rewrite <- app_assoc; simpl). reflexivity. }
    split; [reflexivity|]. split; [reflexivity|]. split; [reflexivity|].
    intros H; congruence.
Qed.

(** [Open] run symbolically up to the reader. *)
Lemma Open_run pszNewName papszOpenOptionsIn bTestOpen st :
  Open pszNewName papszOpenOptionsIn bTestOpen st
  = match resolve_names pszNewName papszOpenOptionsIn with
    | None => (FALSE, st)
    | Some (osBasename, osModelFilename) =>
        let d1 := set_pszName (Some osBasename) (self st) in
        match vsi_fopen osBasename "r" with
        | None =>
            (FALSE,
             mkState d1
               (trace st ++ EvVSIFOpenL osBasename "r" None
                            :: (if bTestOpen =? 0
                                then [EvCPLError CE_Failure CPLE_OpenFailed
                                        (open_failed_msg pszNewName)]
                                else []))%list)
        | Some fp =>
            if bTestOpen =? 0
            then instantiate_reader pszNewName osBasename osModelFilename
                   (mkState d1 (trace st ++ [EvVSIFOpenL osBasename "r" (Some fp);
                                             EvVSIFCloseL fp])%list)
            else
              let data := substring 0 (Z.to_nat (1 * 1000)) (vsi_bytes fp) in
              let tr := (trace st
                         ++ [EvVSIFOpenL osBasename "r" (Some fp);
                             EvVSIFReadL fp 1 1000 (Z.of_nat (String.length data));
                             EvVSIFCloseL fp])%list in
              if header_is_ili2 (szHeader_of data)
              then instantiate_reader pszNewName osBasename osModelFilename
                     (mkState d1 tr)
              else (FALSE, mkState d1 tr)
        end
    end.
Proof.
  unfold Open. destruct (resolve_names pszNewName papszOpenOptionsIn) as [[b m]|];
    [|reflexivity].
  unfold bind at 1. unfold assign at 1. unfold bind at 1.
  unfold VSIFOpenL at 1. unfold bind at 1. unfold emit at 1. unfold ret at 1.
  cbn [self trace].
  destruct (vsi_fopen b "r") as [fp|].
  - destruct (bTestOpen =? 0).
    + cbn [negb]. unfold bind at 1. unfold ret at 1. unfold bind at 1.
      unfold VSIFCloseL, emit. cbn [self trace]. rewrite <- app_assoc. reflexivity.
    + cbn [negb]. unfold bind at 1. unfold bind at 1. unfold VSIFReadL.
      unfold bind at 1. unfold emit at 1. unfold ret at 1. unfold ret at 1.
      cbn [self trace]. cbv zeta.
      destruct (header_is_ili2 _).
      * unfold bind at 1. unfold VSIFCloseL, emit. cbn [self trace].
        repeat (rewrite <- app_assoc; cbn [app]). reflexivity.
      * unfold bind, VSIFCloseL, emit, ret. cbn [self trace].
        repeat (rewrite <- app_assoc; cbn [app]). reflexivity.
  - unfold bind. destruct (bTestOpen =? 0); unfold CPLError, emit, ret; cbn [self trace];
      rewrite <- ?app_assoc; reflexivity.
Qed.

(** ** Lifetimes *)

Lemma filter_printf_map fp (texts : list string) :
  filter is_printf (map (EvVSIFPrintfL fp) texts) = map (EvVSIFPrintfL fp) texts.
Proof. induction texts as [|t texts IH]; simpl; [reflexivity | now rewrite IH]. Qed.

Lemma filter_existsb_false {A : Type} (p : A -> bool) (l : list A) :
  existsb p l = false -> filter p l = [].
Proof.
  induction l as [|x l IH]; simpl; [reflexivity|].
  intros H. apply orb_false_iff in H as [Hx H]. now rewrite Hx, IH.
Qed.

Lemma filter_printf_errors evs : forallb is_error evs = true -> filter is_printf evs = [].
Proof.
  intros H. apply filter_existsb_false. apply errors_no; [|exact H].
  now intros [].
Qed.

(** The last component of a lifetime, from the state the calls leave. *)
Lemma lifetime_run (o : Opening) (l : list Call) :
  lifetime o l
  = (fst (opening o fresh),
     snd (calls l (snd (opening o fresh))),
     snd (destructor (snd (calls l (snd (opening o fresh)))))).
Proof.
  unfold lifetime. destruct (opening o fresh) as [ok st1]. simpl.
  destruct (calls l st1) as [u st2]. simpl.
  now destruct (destructor st2).
Qed.

(** [Open] never touches the output stream and writes nothing. *)
Lemma Open_frame pszNewName papszOpenOptionsIn bTestOpen st :
  fpOutput (self (snd (Open pszNewName papszOpenOptionsIn bTestOpen st)))
  = fpOutput (self st)
  /\ exists evs,
       trace (snd (Open pszNewName papszOpenOptionsIn bTestOpen st))
       = (trace st ++ evs)%list
       /\ filter is_printf evs = [].
Proof.
  rewrite Open_run.
  destruct (resolve_names pszNewName papszOpenOptionsIn) as [[b m]|].
  2:{ split; [reflexivity|]. exists []. now rewrite app_nil_r. }
  cbv zeta. destruct (vsi_fopen b "r") as [fp|].
  2:{ split; [reflexivity|]. eexists. split; [reflexivity|].
      destruct (bTestOpen =? 0); reflexivity. }
  destruct (bTestOpen =? 0).
  - match goal with |- context [instantiate_reader ?a ?b ?c ?s] =>
      destruct (instantiate_reader_run a b c s) as (d' & evs & R & F & Pr & _)
    end.
    rewrite R. cbn [snd self trace] in *. split; [exact F|].
    eexists. split; [rewrite <- app_assoc; reflexivity|].
    cbn. now apply filter_existsb_false.
  - destruct (header_is_ili2 _).
    + match goal with |- context [instantiate_reader ?a ?b ?c ?s] =>
        destruct (instantiate_reader_run a b c s) as (d' & evs & R & F & Pr & _)
      end.
      rewrite R. cbn [snd self trace] in *. split; [exact F|].
      eexists. split; [rewrite <- app_assoc; reflexivity|].
      cbn. now apply filter_existsb_false.
    + cbn [snd self trace]. split; [reflexivity|].
      eexists. split; reflexivity.
Qed.

(** After an [Open] that returns TRUE the list [GetLayer] walks is the list
    of layers of the reader, in the reader's order. *)
Lemma Open_discovers pszNewName papszOpenOptionsIn bTestOpen st st' :
  Open pszNewName papszOpenOptionsIn bTestOpen st = (TRUE, st') ->
  exists rd, poReader (self st') = Some rd
             /\ listLayer (self st') = ILI2_GetLayers rd.
Proof.
  rewrite Open_run.
  destruct (resolve_names pszNewName papszOpenOptionsIn) as [[b m]|];
    [|discriminate].
  cbv zeta. destruct (vsi_fopen b "r") as [fp|]; [|discriminate].
  assert (Reader : forall s, instantiate_reader pszNewName b m s = (TRUE, st') ->
                             exists rd, poReader (self st') = Some rd
                                        /\ listLayer (self st') = ILI2_GetLayers rd).
  { intros s H.
    destruct (instantiate_reader_run pszNewName b m s) as (d' & evs & R & _ & _ & _ & Ok).
    rewrite R in H. destruct new_ILI2Reader; [|discriminate].
    injection H as <-. apply Ok. discriminate. }
  destruct (bTestOpen =? 0); [now apply Reader|].
  destruct (header_is_ili2 _); [now apply Reader | discriminate].
Qed.

(** ** Texts and documents *)

Lemma append_nil_r (s : string) : s ++ "" = s.
Proof. induction s as [|c s IH]; simpl; [reflexivity | now rewrite IH]. Qed.

Lemma concat_cons (x : string) (xs : list string) :
  String.concat "" (x :: xs) = x ++ String.concat "" xs.
Proof. destruct xs; simpl; [now rewrite append_nil_r | reflexivity]. Qed.

Lemma concat_app (l1 l2 : list string) :
  String.concat "" (l1 ++ l2)%list = String.concat "" l1 ++ String.concat "" l2.
Proof.
  induction l1 as [|x l1 IH]; [reflexivity|].
  change ((x :: l1) ++ l2)%list with (x :: (l1 ++ l2))%list.
  now rewrite !concat_cons, IH, CStrFacts.append_assoc.
Qed.

Lemma has_char_app (c : ascii) (a b : string) :
  has_char c (a ++ b) = has_char c a || has_char c b.
Proof.
  induction a as [|x a IH]; simpl; [reflexivity|]. now rewrite IH, orb_assoc.
Qed.

(** A text that does not start as [t] does not either when a text follows
    whose first character is not in [t]. *)
Lemma STARTS_WITH_app_false (t b x : string) (c : ascii) :
  has_char c t = false -> STARTS_WITH b t = false ->
  STARTS_WITH (b ++ String c x) t = false.
Proof.
  revert b; induction t as [|a t IH]; intros b H S; [discriminate S|].
  simpl in H. apply orb_false_iff in H as [Ha Ht].
  destruct b as [|cb b]; simpl.
  - rewrite Ascii.eqb_sym, Ha. reflexivity.
  - simpl in S. destruct (Ascii.eqb cb a); [|reflexivity]. simpl in *. now apply IH.
Qed.

Lemma STARTS_WITH_longer (s t u : string) :
  STARTS_WITH s t = false -> STARTS_WITH s (t ++ u) = false.
Proof.
  revert s; induction t as [|a t IH]; intros s H; [discriminate H|].
  destruct s as [|c s]; simpl in *; [reflexivity|].
  destruct (Ascii.eqb c a); [|reflexivity]. simpl in *. now apply IH.
Qed.

(** What follows a text plays no part in whether it starts as [t], when
    it is nothing or starts with a character that is not in [t]. *)
Lemma STARTS_WITH_app_stop (t r rest : string) (c : ascii) :
  has_char c t = false ->
  rest = "" \/ (exists x, rest = String c x) ->
  STARTS_WITH (r ++ rest) t = STARTS_WITH r t.
Proof.
  intros H [-> | [x ->]]; [now rewrite append_nil_r|].
  revert r H; induction t as [|a t IH]; intros r H; [reflexivity|].
  simpl in H. apply orb_false_iff in H as [Ha Ht].
  destruct r as [|cr r]; simpl.
  - rewrite Ascii.eqb_sym, Ha. reflexivity.
  - now rewrite IH.
Qed.

Lemma occurrences_skip (c : ascii) (t r rest : string) :
  has_char c r = false ->
  occurrences (String c t) (r ++ rest) = occurrences (String c t) rest.
Proof.
  induction r as [|x r IH]; intros H; [reflexivity|].
  simpl in H. apply orb_false_iff in H as [Hx Hr].
  cbn [append occurrences STARTS_WITH]. rewrite Hx. cbn [andb]. now apply IH.
Qed.

Lemma concat_tag_texts_head (ps : list string) :
  forallb is_tag_text ps = true ->
  String.concat "" ps = "" \/ exists x, String.concat "" ps = String "<"%char x.
Proof.
  destruct ps as [|p ps]; [now left|]. intros H. right.
  cbn [forallb] in H. apply andb_true_iff in H as [Hp _].
  rewrite concat_cons. destruct p as [|c r]; [discriminate Hp|].
  cbn [is_tag_text] in Hp. apply andb_true_iff in Hp as [Hc _].
  apply Ascii.eqb_eq in Hc as ->. eexists. reflexivity.
Qed.

(** In texts put end to end, each starting with [<] and holding no other
    [<], a text that starts with [<] and holds no other [<] starts exactly
    where one of the texts starts as it. *)
Lemma occurrences_tag_texts (t : string) (ps : list string) :
  has_char "<"%char t = false ->
  forallb is_tag_text ps = true ->
  occurrences (String "<"%char t) (String.concat "" ps)
  = List.length (filter (fun p => STARTS_WITH p (String "<"%char t)) ps).
Proof.
  intros Ht. induction ps as [|p ps IH]; intros H; [reflexivity|].
  cbn [forallb] in H. apply andb_true_iff in H as [Hp Hps].
  pose proof (concat_tag_texts_head ps Hps) as Hd.
  rewrite concat_cons. destruct p as [|c r]; [discriminate Hp|].
  cbn [is_tag_text] in Hp. apply andb_true_iff in Hp as [Hc Hr].
  apply Ascii.eqb_eq in Hc as ->. apply negb_true_iff in Hr.
  cbn [append occurrences filter].
  rewrite (occurrences_skip _ _ _ _ Hr), (IH Hps).
  cbn [STARTS_WITH]. rewrite Ascii.eqb_refl. cbn [andb].
  rewrite (STARTS_WITH_app_stop t r _ "<"%char Ht Hd).
  destruct (STARTS_WITH r t); reflexivity.
Qed.

Lemma model_entry_tag_text (it : IliModelInfo) :
  negb (has_char "<"%char (c_str (name it)) || has_char "<"%char (c_str (uri it))
        || has_char "<"%char (c_str (version it))) = true ->
  is_tag_text (model_entry it) = true /\ STARTS_WITH (model_entry it) "<MODEL " = true.
Proof.
  intros H. apply negb_true_iff in H.
  apply orb_false_iff in H as [H Hv]. apply orb_false_iff in H as [Hn Hu].
  split; [|reflexivity].
  unfold model_entry, is_tag_text. cbn [append]. rewrite Ascii.eqb_refl.
  apply negb_true_iff.
  repeat (rewrite ?has_char_app, ?Hn, ?Hu, ?Hv; cbn [has_char append orb]).
  reflexivity.
Qed.

Lemma model_entries_tag_texts (ds : list IliModelInfo) :
  forallb (fun it : IliModelInfo =>
             negb (has_char "<"%char (c_str (name it))
                   || has_char "<"%char (c_str (uri it))
                   || has_char "<"%char (c_str (version it)))) ds = true ->
  forallb is_tag_text (map model_entry ds) = true
  /\ filter (fun p => STARTS_WITH p "<MODEL ") (map model_entry ds)
     = map model_entry ds.
Proof.
  induction ds as [|it ds IH]; [now split|].
  cbn [forallb map filter]. intros H. apply andb_true_iff in H as [Hi Hds].
  destruct (model_entry_tag_text it Hi) as [-> ->]. destruct (IH Hds) as [-> ->].
  now split.
Qed.

Lemma basket_open_tag_text (imd : ImdReader) :
  has_char "<"%char (c_str (mainBasketName imd)) = false ->
  STARTS_WITH (c_str (mainBasketName imd)) "MODEL" = false ->
  is_tag_text (basket_open imd) = true
  /\ STARTS_WITH (basket_open imd) "<MODEL " = false
  /\ is_tag_text (basket_close imd) = true.
Proof.
  intros Hb Hm. unfold basket_open, basket_close, is_tag_text. cbn [append].
  rewrite !Ascii.eqb_refl. cbn [andb STARTS_WITH].
  split; [|split].
  - apply negb_true_iff.
    repeat (rewrite ?has_char_app, ?Hb; cbn [has_char append orb]). reflexivity.
  - rewrite Ascii.eqb_refl. cbn [andb].
    apply (STARTS_WITH_longer _ "MODEL" " ").
    now apply STARTS_WITH_app_false.
  - apply negb_true_iff. cbn [has_char].
    repeat (rewrite ?has_char_app, ?Hb; cbn [has_char append orb]). reflexivity.
Qed.

Lemma headersection_open_tag_text :
  has_char "<"%char (GDALVersionInfo "RELEASE_NAME") = false ->
  is_tag_text headersection_open = true.
Proof.
  intros Hv. unfold headersection_open, is_tag_text. cbn [append].
  rewrite Ascii.eqb_refl. apply negb_true_iff.
  repeat (rewrite ?has_char_app, ?Hv; cbn [has_char append orb]). reflexivity.
Qed.

(** * The claims *)


(** Claim C4.  When the comma split of the address yields one part only,
    [Create] returns FALSE after reporting one error of class failure and
    number AppDefined, and asks nothing else of the outside: no file is
    opened, read, written or closed, and no model is loaded; the output
    stream is left as it was. *)
Theorem create_without_model pszFilename papszOptions st (part : string) :
  CSLTokenizeString2 pszFilename "," 0 = [part] ->
  exists st' evs,
    Create pszFilename papszOptions st = (FALSE, st')
    /\ trace st' = (trace st ++ evs)%list
    /\ evs = [EvCPLError CE_Failure CPLE_AppDefined no_model_msg]
    /\ filter is_file_io evs = []
    /\ fpOutput (self st') = fpOutput (self st).
Proof.
  intros H. rewrite Create_run. cbv zeta. rewrite H. cbn [CSLCount List.length].
  change (1 <? Z.of_nat 1) with false. cbv iota.
  eexists. eexists. split; [reflexivity|]. cbn [self trace].
  split; [reflexivity|]. split; [reflexivity|]. split; reflexivity.
Qed.

(** With a model path in the address, [Create] opens one file: the
    target of the output name. *)
Lemma Create_opens pszFilename papszOptions st (base model : string)
  (rest : list string) :
  CSLTokenizeString2 pszFilename "," 0 = base :: model :: rest ->
  exists evs,
    trace (snd (Create pszFilename papszOptions st)) = (trace st ++ evs)%list
    /\ opened evs = [output_target base]
    /\ pszName (self (snd (Create pszFilename papszOptions st)))
       = Some (fst (output_target base)).
Proof.
  intros H. rewrite Create_run. cbv zeta. rewrite H.
  assert (C : (1 <? CSLCount (base :: model :: rest)) = true)
    by (apply Z.ltb_lt; unfold CSLCount; simpl List.length; lia).
  rewrite C. cbn [nth_error CPLStrdup].
  destruct (output_target base) as [path mode].
  destruct (vsi_fopen path mode) as [fp|]; cbn [snd self trace fst].
  - eexists. split; [reflexivity|]. split; [|reflexivity].
    cbn [opened flat_map app].
    change (flat_map _ (map (EvVSIFPrintfL fp) ?t))
      with (opened (map (EvVSIFPrintfL fp) t)).
    now rewrite opened_map_printf.
  - eexists. split; [reflexivity|]. split; reflexivity.
Qed.

Lemma output_target_zip (base : string) :
  STARTS_WITH base "/vsizip/" = true ->
  EQUAL (c_str (CPLGetExtensionSafe base)) "zip" = true ->
  output_target base = (c_str (CPLFormFilenameSafe base "out.xtf" None), "wb").
Proof.
  intros Z E. unfold output_target. rewrite Z, E.
  apply CStrFacts.STARTS_WITH_iff in Z as [post ->]. reflexivity.
Qed.

Lemma output_target_plain (base : string) :
  strcmp0 base "/vsistdout/" = false ->
  STARTS_WITH base "/vsigzip/" = false ->
  STARTS_WITH base "/vsizip/" = false ->
  output_target base = (base, "wb+").
Proof. intros S G Z. unfold output_target. now rewrite S, G, Z. Qed.

(** Claim C7.  With an address of at least two parts: when the output
    name starts with [/vsizip/] and its extension is [zip], the one file
    [Create] opens is the name with the entry [out.xtf] formed onto it, for
    writing, and that becomes the name of the container; when the name is
    not [/vsistdout/] and starts with neither [/vsigzip/] nor [/vsizip/],
    the one file [Create] opens is the name itself, unchanged. *)
Theorem create_output_path pszFilename papszOptions st (base model : string)
  (rest : list string) :
  CSLTokenizeString2 pszFilename "," 0 = base :: model :: rest ->
  exists evs,
    trace (snd (Create pszFilename papszOptions st)) = (trace st ++ evs)%list
    /\ (STARTS_WITH base "/vsizip/" = true ->
        EQUAL (c_str (CPLGetExtensionSafe base)) "zip" = true ->
        opened evs = [(c_str (CPLFormFilenameSafe base "out.xtf" None), "wb")]
        /\ pszName (self (snd (Create pszFilename papszOptions st)))
           = Some (c_str (CPLFormFilenameSafe base "out.xtf" None)))
    /\ (strcmp0 base "/vsistdout/" = false ->
        STARTS_WITH base "/vsigzip/" = false ->
        STARTS_WITH base "/vsizip/" = false ->
        opened evs = [(base, "wb+")]
        /\ pszName (self (snd (Create pszFilename papszOptions st))) = Some base).
Proof.
  intros H. destruct (Create_opens _ papszOptions st _ _ _ H) as (evs & T & O & N).
  exists evs. split; [exact T|]. split.
  - intros Z E. rewrite O, N, (output_target_zip base Z E). now split.
  - intros S G Z. rewrite O, N, (output_target_plain base S G Z). now split.
Qed.

(** Claim C6.  Over a whole lifetime (construction, [Open] or [Create],
    any calls, destruction): when the container was made by a [Create]
    that succeeded, the output stream is held, the writes before the
    destructor are exactly the opening framing (prolog, envelope, header,
    model list, data-section open tag, basket open tag), and the destructor
    adds exactly, once and in this order, the basket close tag,
    [</DATASECTION>] and [</TRANSFER>], each on a line of its own, and then
    closes the stream; in every other case (a container opened for
    reading, a [Create] that failed) no stream is held, nothing is ever
    written and the destructor adds nothing. *)
Theorem footer_once_at_teardown (o : Opening) (l : list Call) :
  let '(ok, st2, st3) := lifetime o l in
  if is_create o && (ok =? TRUE)
  then exists fp,
         let q := String "034"%char EmptyString in
         let nl := String "010"%char EmptyString in
         let descriptors := modelInfos (poImdReader (self st2)) in
         let basketName := c_str (mainBasketName (poImdReader (self st2))) in
         let entry := fun it : IliModelInfo =>
           "<MODEL NAME=" ++ q ++ c_str (name it) ++ q
           ++ " URI=" ++ q ++ c_str (uri it) ++ q
           ++ " VERSION=" ++ q ++ c_str (version it) ++ q ++ "/>" ++ nl in
         fpOutput (self st2) = Some fp
         /\ filter is_printf (trace st2)
            = map (EvVSIFPrintfL fp)
                (List.app
                   ["<?xml version=" ++ q ++ "1.0" ++ q ++ " encoding=" ++ q ++ "utf-8"
                    ++ q ++ " ?>" ++ nl;
                    "<TRANSFER xmlns=" ++ q ++ "http://www.interlis.ch/INTERLIS2.3" ++ q
                    ++ ">" ++ nl;
                    "<HEADERSECTION SENDER=" ++ q ++ "OGR/GDAL "
                    ++ GDALVersionInfo "RELEASE_NAME" ++ q ++ " VERSION=" ++ q ++ "2.3"
                    ++ q ++ ">" ++ nl;
                    "<MODELS>" ++ nl]
                   (List.app (map entry descriptors)
                      ["</MODELS>" ++ nl; "</HEADERSECTION>" ++ nl;
                       "<DATASECTION>" ++ nl;
                       "<" ++ basketName ++ " BID=" ++ q ++ basketName ++ q ++ ">"
                       ++ nl]))
         /\ trace st3
            = List.app (trace st2)
                [EvVSIFPrintfL fp ("</" ++ basketName ++ ">" ++ nl);
                 EvVSIFPrintfL fp ("</DATASECTION>" ++ nl);
                 EvVSIFPrintfL fp ("</TRANSFER>" ++ nl);
                 EvVSIFCloseL fp]
  else fpOutput (self st2) = None
       /\ filter is_printf (trace st3) = []
       /\ trace st3 = trace st2.
Proof.
  rewrite lifetime_run.
  destruct (calls_frame l (snd (opening o fresh))) as (F & I & _ & evs & T & Er).
  rewrite destructor_run.
  set (st2 := snd (calls l (snd (opening o fresh)))) in *.
  destruct o as [n opts t | n opts]; cbn [is_create opening andb] in *.
  - (* opened for reading *)
    destruct (Open_frame n opts t fresh) as (Fo & evo & To & Po).
    rewrite Fo in F. cbn [fresh self constructor fpOutput] in F.
    rewrite F. cbn [snd]. split; [reflexivity|]. split; [|reflexivity].
    rewrite T, To. cbn [fresh trace app].
    now rewrite filter_app, Po, (filter_printf_errors evs Er).
  - (* created *)
    rewrite Create_run in *. cbv zeta in *.
    destruct (if 1 <? CSLCount (CSLTokenizeString2 n "," 0)
              then nth_error (CSLTokenizeString2 n "," 0) 1 else None) as [model|].
    + destruct (output_target _) as [path mode].
      destruct (vsi_fopen path mode) as [fp|] eqn:O;
        cbn [fst snd self trace fpOutput set_poImdReader set_fpOutput
               set_pszName poImdReader fresh constructor app] in *.
      * change (TRUE =? TRUE) with true. cbv iota. rewrite F. cbn [snd].
        exists fp. split; [reflexivity|]. split; [|reflexivity].
        rewrite T, I. cbn [filter is_printf].
        rewrite filter_app, (filter_printf_errors evs Er), app_nil_r.
        rewrite filter_printf_map. reflexivity.
      * change (FALSE =? TRUE) with false. cbv iota. rewrite F. cbn [snd].
        split; [reflexivity|]. split; [|reflexivity].
        rewrite T. cbn [filter is_printf].
        apply (filter_printf_errors evs Er).
    + cbn [fst snd self trace fpOutput set_pszName fresh constructor app] in *.
      change (FALSE =? TRUE) with false. cbv iota. rewrite F. cbn [snd].
      split; [reflexivity|]. split; [|reflexivity].
      rewrite T. cbn [filter is_printf].
      apply (filter_printf_errors evs Er).
Qed.

(** Claim C5.  In a container that holds its output stream, creating a
    layer whose name the catalog does not have returns a layer (not null):
    its schema bears the layer name, has no attribute field and has the
    requested geometry type, that is one geometry field of that type, or
    none when the type is [wkbNone], as when no geometry descriptor is
    given.  One warning (not a failure) is reported, the layer is appended
    to the array, and the output stream and the catalog stay as they were. *)
Theorem create_layer_adhoc pszLayerName (poGeomFieldDefn : option OGRGeomFieldDefn)
  papszOptions st (fp : VSILFILE) :
  fpOutput (self st) = Some fp ->
  GetTableDefnRef (GetFeatureDefnInfo (poImdReader (self st)) pszLayerName) = None ->
  exists poLayer st' eType,
    ICreateLayer pszLayerName poGeomFieldDefn papszOptions st = (Some poLayer, st')
    /\ eType = match poGeomFieldDefn with
               | Some g => GetType g
               | None => wkbNone
               end
    /\ GetName (poFeatureDefn poLayer) = pszLayerName
    /\ attribute_fields (poFeatureDefn poLayer) = []
    /\ geometry_fields (poFeatureDefn poLayer)
       = (if eType =? wkbNone then [] else [mkGeomField "" eType])
    /\ GetGeomType (poFeatureDefn poLayer) = eType
    /\ trace st'
       = (trace st ++ [EvCPLError CE_Warning CPLE_AppDefined (adhoc_msg pszLayerName)])%list
    /\ fpOutput (self st') = Some fp
    /\ poImdReader (self st') = poImdReader (self st)
    /\ papoLayers (self st') = (papoLayers (self st) ++ [poLayer])%list
    /\ nLayers (self st') = nLayers (self st) + 1.
Proof.
  intros F A. rewrite ICreateLayer_run, F. cbv zeta. rewrite A.
  set (eType := match poGeomFieldDefn with
                | Some g => GetType g
                | None => wkbNone
                end).
  eexists. eexists. exists eType. split; [reflexivity|]. split; [reflexivity|].
  cbn [poFeatureDefn self trace].
  unfold SetGeomType, new_OGRFeatureDefn, GetGeomType.
  cbn [geometry_fields GetName attribute_fields geomfield_name].
  destruct (eType =? wkbNone) eqn:E.
  - apply Z.eqb_eq in E. cbn. rewrite E. repeat split; auto.
  - cbn. repeat split; auto.
Qed.

(** Claim C8, as amended.  [TestCapability] leaves the object and the
    trace as they are and its result depends on the name alone: TRUE when
    the name is, letter case set aside, one of [CreateLayer],
    [CurveGeometries] and [ZGeometries] (so for these three names
    themselves), FALSE for every other name. *)
Theorem TestCapability_names pszCap st :
  snd (TestCapability pszCap st) = st
  /\ (fst (TestCapability pszCap st) = TRUE
      <-> lower pszCap = "createlayer" \/ lower pszCap = "curvegeometries"
          \/ lower pszCap = "zgeometries")
  /\ (fst (TestCapability pszCap st) = TRUE \/ fst (TestCapability pszCap st) = FALSE)
  /\ fst (TestCapability ODsCCreateLayer st) = TRUE
  /\ fst (TestCapability ODsCCurveGeometries st) = TRUE
  /\ fst (TestCapability ODsCZGeometries st) = TRUE.
Proof.
  rewrite !TestCapability_run. cbn [fst snd].
  split; [reflexivity|]. split; [|split; [|repeat split]].
  - change "createlayer" with (lower ODsCCreateLayer).
    change "curvegeometries" with (lower ODsCCurveGeometries).
    change "zgeometries" with (lower ODsCZGeometries).
    rewrite <- !CStrFacts.EQUAL_iff.
    destruct (EQUAL pszCap ODsCCreateLayer), (EQUAL pszCap ODsCCurveGeometries),
      (EQUAL pszCap ODsCZGeometries); cbn; unfold TRUE, FALSE;
      (split; [intros H; try discriminate H; auto | intros [H|[H|H]]; try discriminate H; auto]).
  - destruct (_ || _ || _); auto.
Qed.

(** Layer creation leaves the list that [GetLayer] walks as it is. *)
Lemma ICreateLayer_keeps_listLayer pszLayerName poGeomFieldDefn papszOptions st :
  listLayer (self (snd (ICreateLayer pszLayerName poGeomFieldDefn papszOptions st)))
  = listLayer (self st).
Proof.
  rewrite ICreateLayer_run. destruct (fpOutput (self st)); [|reflexivity].
  cbv zeta. destruct (GetTableDefnRef _); reflexivity.
Qed.

(** Claim C2, as amended.  For a container whose list of layers discovered
    at open holds K layers, [GetLayer] with [0 <= i < K] returns the layer at
    discovery position [i], and with [i >= K] it returns null; the object
    and the trace are left as they are. *)
Theorem GetLayer_discovered (i : Z) st :
  (0 <= i < Z.of_nat (List.length (listLayer (self st))) ->
   exists layer,
     nth_error (listLayer (self st)) (Z.to_nat i) = Some layer
     /\ GetLayer i st = (Some layer, st))
  /\ (Z.of_nat (List.length (listLayer (self st))) <= i -> GetLayer i st = (None, st)).
Proof.
  split.
  - intros H. rewrite GetLayer_value.
    replace (i <? 0) with false by (symmetry; apply Z.ltb_ge; lia).
    destruct (nth_error (listLayer (self st)) (Z.to_nat i)) as [layer|] eqn:N.
    + now exists layer.
    + apply nth_error_None in N. unfold OGRLayer in *. lia.
  - intros H. rewrite GetLayer_value.
    replace (i <? 0) with false by (symmetry; apply Z.ltb_ge; lia).
    f_equal. apply nth_error_None. unfold OGRLayer in *. lia.
Qed.

(** Claim C10.  For a negative index [GetLayer] returns null: the walk
    takes no turn and leaves the iterator at the start of the list, and the
    object and the trace are left as they are.  For every index whatever,
    [GetLayer] returns, the walk takes no more turns than there are layers
    and its counter stays between 0 and the index. *)
Theorem GetLayer_negative (iLayer : Z) st :
  iLayer < 0 ->
  GetLayer iLayer st = (None, st)
  /\ GetLayer_walk 0 iLayer (listLayer (self st)) O = (0, listLayer (self st), O)
  /\ forall j : Z,
       (exists r, GetLayer j st = (r, st))
       /\ (let '(i, _, turns) := GetLayer_walk 0 j (listLayer (self st)) O in
           (turns <= List.length (listLayer (self st)))%nat
           /\ 0 <= i <= Z.max 0 j).
Proof.
  intros H. split; [|split].
  - rewrite GetLayer_value.
    now replace (iLayer <? 0) with true by (symmetry; apply Z.ltb_lt; lia).
  - apply GetLayer_walk_stay. lia.
  - intros j. split.
    + rewrite GetLayer_value. eauto.
    + destruct (Z.le_gt_cases 0 j) as [J|J].
      * rewrite GetLayer_walk_spec by exact J. cbv beta iota zeta. unfold OGRLayer in *. lia.
      * rewrite GetLayer_walk_stay by lia. cbv beta iota zeta. lia.
Qed.

(** Claim C9.  When the data file of the address cannot be opened for
    reading, [Open] returns FALSE having done nothing but the attempt to
    open it and, in trusted mode only ([bTestOpen] zero), the report of one
    error of class failure and number OpenFailed. *)
Theorem open_failure_reporting pszNewName papszOpenOptionsIn (bTestOpen : Z) st
  (osBasename osModelFilename : string) :
  resolve_names pszNewName papszOpenOptionsIn = Some (osBasename, osModelFilename) ->
  vsi_fopen osBasename "r" = None ->
  exists st' evs,
    Open pszNewName papszOpenOptionsIn bTestOpen st = (FALSE, st')
    /\ trace st' = (trace st ++ EvVSIFOpenL osBasename "r" None :: evs)%list
    /\ (bTestOpen = 0 ->
        evs = [EvCPLError CE_Failure CPLE_OpenFailed (open_failed_msg pszNewName)])
    /\ (bTestOpen <> 0 -> evs = [])
    /\ (existsb is_error evs = true <-> bTestOpen = 0).
Proof.
  intros R O. rewrite Open_run, R. cbv zeta. rewrite O.
  eexists. eexists. split; [reflexivity|]. cbn [trace]. split; [reflexivity|].
  destruct (bTestOpen =? 0) eqn:E.
  - apply Z.eqb_eq in E. repeat split; auto; congruence.
  - apply Z.eqb_neq in E. repeat split; auto; try congruence. discriminate.
Qed.

Lemma header_is_ili2_iff (szHeader : string) :
  header_is_ili2 szHeader = true
  <-> at0 szHeader = "<"%char
      /\ exists pre post, szHeader = pre ++ ILI2_MARKER ++ post.
Proof.
  unfold header_is_ili2. rewrite negb_true_iff, orb_false_iff, negb_false_iff.
  rewrite Ascii.eqb_eq, <- CStrFacts.strstr_found_iff.
  destruct (strstr szHeader ILI2_MARKER); split; intros [A B]; split; auto;
    congruence.
Qed.


End Properties.

(** * The claims on concrete inputs *)

Import Concrete.


(** C2, refuted: a layer made by layer creation is in the registry of the
    spec, at position 0, and [GetLayer 0] returns null. *)
Lemma GetLayer_misses_created_layer :
  let (ok, st1) := @Create P "out.xtf,roads.imd" [] fresh in
  let (layer, st2) := ICreateLayer "Roads.Street" (Some (mkGeomField "Geometry" 2)) [] st1 in
  ok = TRUE
  /\ layer = Some Ref.street_layer
  /\ spec_registry (self st2) = [Ref.street_layer]
  /\ nLayers (self st2) = 1
  /\ fst (GetLayer 0 st2) = None.
Proof. vm_compute. repeat split; reflexivity. Qed.

(** C2 as amended, on the two layers found in [sample.xtf]. *)
Lemma GetLayer_discovered_witness :
  let st := snd (@Open P "sample.xtf" [] 1 fresh) in
  listLayer (self st) = [Ref.street_layer; Ref.sign_layer]
  /\ GetLayer 1 st = (Some Ref.sign_layer, st)
  /\ GetLayer 2 st = (None, st).
Proof.
  intros st. split; [reflexivity|].
  destruct (@GetLayer_discovered P 1 st) as (In & _).
  destruct (@GetLayer_discovered P 2 st) as (_ & Out).
  split.
  - destruct In as (layer & N & G); [vm_compute; split; congruence|].
    rewrite G. vm_compute in N. now injection N as <-.
  - apply Out. vm_compute. congruence.
Defined.



(** C4 on the address [out.xtf]. *)
Lemma create_without_model_witness :
  @CSLTokenizeString2 P "out.xtf" "," 0 = ["out.xtf"]
  /\ exists st',
       @Create P "out.xtf" [] fresh = (FALSE, st')
       /\ trace st' = [EvCPLError CE_Failure CPLE_AppDefined no_model_msg]
       /\ fpOutput (self st') = None.
Proof.
  split; [reflexivity|].
  destruct (@create_without_model P "out.xtf" [] fresh "out.xtf" eq_refl)
    as (st' & evs & R & T & -> & _ & F).
  exists st'. split; [exact R|]. split; [exact T | exact F].
Defined.

(** C5 on the layer [Lamps], which [roads.imd] does not describe. *)
Lemma create_layer_adhoc_witness :
  let st := snd (@Create P "out.xtf,roads.imd" [] fresh) in
  exists poLayer st',
    ICreateLayer "Lamps" (Some (mkGeomField "Position" 1)) [] st = (Some poLayer, st')
    /\ poFeatureDefn poLayer = mkFeatureDefn "Lamps" [] [mkGeomField "" 1]
    /\ fpOutput (self st') = fpOutput (self st).
Proof.
  intros st.
  destruct (@create_layer_adhoc P "Lamps" (Some (mkGeomField "Position" 1)) [] st 2%nat
              eq_refl eq_refl)
    as (poLayer & st' & eType & R & -> & Nm & At & Ge & _ & _ & F & _).
  exists poLayer, st'. split; [exact R|]. split; [|exact F].
  destruct poLayer as [[n a g] i]. cbn in Nm, At, Ge. now subst.
Defined.

(** C6 on [out.xtf,roads.imd] and on [sample.xtf]: the footer the
    destructor writes, and none for the container opened for reading. *)
Lemma footer_once_at_teardown_witness :
  (let nl := String "010"%char EmptyString in
   trace (snd created)
   = List.app (trace (snd (fst created)))
       [EvVSIFPrintfL 2%nat ("</Roads.Streets>" ++ nl);
        EvVSIFPrintfL 2%nat ("</DATASECTION>" ++ nl);
        EvVSIFPrintfL 2%nat ("</TRANSFER>" ++ nl);
        EvVSIFCloseL 2%nat])
  /\ List.length (filter is_printf (trace (snd (fst created)))) = 10%nat
  /\ filter is_printf
       (trace (snd (@lifetime P (ByOpen "sample.xtf" [] 1) [CallGetLayer 0]))) = [].
Proof.
  split; [|split].
  - pose proof (@footer_once_at_teardown P (ByCreate "out.xtf,roads.imd" [])
                  [CallICreateLayer "Roads.Street" None [];
                   CallICreateLayer "Lamps" (Some (mkGeomField "Position" 1)) []]) as H.
    assert (E : @lifetime P (ByCreate "out.xtf,roads.imd" [])
                  [CallICreateLayer "Roads.Street" None [];
                   CallICreateLayer "Lamps" (Some (mkGeomField "Position" 1)) []]
                = (TRUE, snd (fst created), snd created)) by reflexivity.
    rewrite E in H. cbn [is_create andb] in H.
    change (TRUE =? TRUE) with true in H. cbv beta iota zeta in H.
    destruct H as (fp & F & _ & Tr).
    vm_compute in F. injection F as <-. cbv zeta. rewrite Tr. reflexivity.
  - reflexivity.
  - pose proof (@footer_once_at_teardown P (ByOpen "sample.xtf" [] 1) [CallGetLayer 0])
      as H.
    destruct (@lifetime P (ByOpen "sample.xtf" [] 1) [CallGetLayer 0])
      as [[ok st2] st3].
    cbn [is_create andb] in H. cbn [snd]. apply H.
Defined.

(** C7 on a bare archive and on a plain path. *)
Lemma create_output_path_witness :
  opened (trace (snd (@Create P "/vsizip/a.zip,roads.imd" [] fresh)))
  = [("/vsizip/a.zip/out.xtf", "wb")]
  /\ opened (trace (snd (@Create P "dir/a.zip,roads.imd" [] fresh)))
     = [("dir/a.zip", "wb+")].
Proof.
  split.
  - destruct (@create_output_path P "/vsizip/a.zip,roads.imd" [] fresh
                "/vsizip/a.zip" "roads.imd" [] eq_refl) as (evs & T & Zip & _).
    rewrite T. destruct Zip as [O _]; [reflexivity | reflexivity |]. exact O.
  - destruct (@create_output_path P "dir/a.zip,roads.imd" [] fresh
                "dir/a.zip" "roads.imd" [] eq_refl) as (evs & T & _ & Plain).
    rewrite T. destruct Plain as [O _]; [reflexivity | reflexivity | reflexivity |].
    exact O.
Defined.

(** C8, refuted: [createlayer] is none of the three capability names and
    the answer is TRUE. *)
Lemma TestCapability_other_spelling :
  "createlayer" <> ODsCCreateLayer
  /\ "createlayer" <> ODsCCurveGeometries
  /\ "createlayer" <> ODsCZGeometries
  /\ fst (@TestCapability P "createlayer" fresh) = TRUE.
Proof. repeat split; try discriminate. Qed.

(** C9 on a file that is not there, probing and trusted. *)
Lemma open_failure_reporting_witness :
  (exists st',
     @Open P "nofile.xtf" [] 1 fresh = (FALSE, st')
     /\ trace st' = [EvVSIFOpenL "nofile.xtf" "r" None])
  /\ (exists st',
        @Open P "nofile.xtf" [] 0 fresh = (FALSE, st')
        /\ trace st'
           = [EvVSIFOpenL "nofile.xtf" "r" None;
              EvCPLError CE_Failure CPLE_OpenFailed (open_failed_msg "nofile.xtf")]).
Proof.
  split.
  - destruct (@open_failure_reporting P "nofile.xtf" [] 1 fresh "nofile.xtf" ""
                eq_refl eq_refl) as (st' & evs & R & T & _ & Pr & _).
    exists st'. split; [exact R|]. rewrite T, Pr; [reflexivity | discriminate].
  - destruct (@open_failure_reporting P "nofile.xtf" [] 0 fresh "nofile.xtf" ""
                eq_refl eq_refl) as (st' & evs & R & T & Tr & _ & _).
    exists st'. split; [exact R|]. rewrite T, Tr; reflexivity.
Defined.

(** C10 on the index -1. *)
Lemma GetLayer_negative_witness :
  let st := snd (@Open P "sample.xtf" [] 1 fresh) in
  -1 < 0 /\ GetLayer (-1) st = (None, st).
Proof.
  intros st. split; [reflexivity|].
  apply (@GetLayer_negative P (-1) st). reflexivity.
Defined.

(** * Further properties of the controller *)

Section MoreProperties.

Context {P : Platform}.

Implicit Types (st : State P) (d : OGRILI2DataSource P) (tr : list Event).

Ltac run :=
  repeat (rewrite ?bind_bind, ?bind_emit, ?bind_assign, ?bind_this, ?bind_ret;
          cbn [self trace poImdReader fpOutput listLayer pszName poReader
               nLayers papoLayers
               set_poReader set_pszName set_listLayer set_poImdReader
               set_fpOutput]).

(** ** The reader, in full *)

Lemma instantiate_reader_full pszNewName osBasename osModelFilename st :
  exists d' tail,
    instantiate_reader pszNewName osBasename osModelFilename st
    = (match new_ILI2Reader with Some _ => TRUE | None => FALSE end,
       mkState d' (trace st ++ tail)%list)
    /\ fpOutput d' = fpOutput (self st)
    /\ nLayers d' = nLayers (self st)
    /\ papoLayers d' = papoLayers (self st)
    /\ pszName d' = pszName (self st)
    /\ (new_ILI2Reader = None ->
        tail = [EvCreateILI2Reader false;
                EvCPLError CE_Failure CPLE_AppDefined (no_reader_msg pszNewName)]
        /\ listLayer d' = listLayer (self st)
        /\ poReader d' = None
        /\ poImdReader d' = poImdReader (self st))
    /\ (new_ILI2Reader <> None ->
        exists rd,
          poReader d' = Some rd
          /\ listLayer d' = ILI2_GetLayers rd
          /\ tail = (EvCreateILI2Reader true
                     :: (if String.eqb osModelFilename "" then []
                         else [EvReaderReadModel osModelFilename])
                     ++ [EvSetSourceFile osBasename; EvSaveClasses osBasename;
                         EvGetLayers]
                     ++ map EvResetReading (ILI2_GetLayers rd))%list
          /\ (osModelFilename = "" -> poImdReader d' = poImdReader (self st))).
Proof.
  unfold instantiate_reader. destruct new_ILI2Reader as [rd0|].
  - destruct (String.eqb osModelFilename "") eqn:E; cbn [negb].
    + run. rewrite bind_run, for_each_emit. unfold ret. cbn [fst snd self trace].
      eexists. eexists. split.
      { repeat (rewrite <- app_assoc; cbn [app]). reflexivity. }
      repeat (split; [reflexivity|]). split; [discriminate|]. intros _.
      eexists. repeat (split; [reflexivity|]). reflexivity.
    + destruct (ILI2_ReadModel rd0 (poImdReader (self st)) osModelFilename)
        as [rd imd] eqn:R.
      run. rewrite R. run. rewrite bind_run, for_each_emit. unfold ret.
      cbn [fst snd self trace].
      eexists. eexists. split.
      { repeat (rewrite <- app_assoc; cbn [app]). reflexivity. }
      repeat (split; [reflexivity|]). split; [discriminate|]. intros _.
      eexists. repeat (split; [reflexivity|]).
      intros ->. discriminate E.
  - run. unfold CPLError. run. unfold ret.
    eexists. eexists. split.
    { repeat (rewrite <- app_assoc; cbn [app]). reflexivity. }
    repeat (split; [reflexivity|]). split.
    + intros _. repeat split; reflexivity.
    + intros H. congruence.
Qed.

(** [Open] on a file that opens: the events up to the close, then the
    reader's, if the file is taken. *)
Lemma Open_shape pszNewName papszOpenOptionsIn (bTestOpen : Z) st
  (osBasename osModelFilename : string) (fp : VSILFILE) :
  resolve_names pszNewName papszOpenOptionsIn = Some (osBasename, osModelFilename) ->
  vsi_fopen osBasename "r" = Some fp ->
  exists st0,
    self st0 = set_pszName (Some osBasename) (self st)
    /\ trace st0
       = (trace st
          ++ EvVSIFOpenL osBasename "r" (Some fp)
             :: (if bTestOpen =? 0 then []
                 else [EvVSIFReadL fp 1 1000
                         (Z.of_nat (String.length
                                      (substring 0 (Z.to_nat (1 * 1000)) (vsi_bytes fp))))])
             ++ [EvVSIFCloseL fp])%list
    /\ Open pszNewName papszOpenOptionsIn bTestOpen st
       = (if (bTestOpen =? 0) || header_is_ili2 (probed_header (vsi_bytes fp))
          then instantiate_reader pszNewName osBasename osModelFilename st0
          else (FALSE, st0)).
Proof.
  intros R O. rewrite Open_run, R. cbv zeta. rewrite O. unfold probed_header.
  destruct (bTestOpen =? 0); cbn [orb].
  - eexists (mkState _ _). cbn [self trace app]. split; [reflexivity|].
    split; reflexivity.
  - eexists (mkState _ _). cbn [self trace app]. split; [reflexivity|].
    split; [reflexivity|]. destruct (header_is_ili2 _); reflexivity.
Qed.

Lemma filter_map_reset (p : Event -> bool) (l : list OGRLayer) :
  (forall layer, p (EvResetReading layer) = false) ->
  filter p (map EvResetReading l) = [].
Proof.
  intros H. induction l as [|x l IH]; simpl; [reflexivity|]. now rewrite H, IH.
Qed.

(** ** Open *)

(** An address without any part, and no MODEL option: [Open] returns
    FALSE at once.  Nothing is opened and no error is reported, in trusted
    mode as in probing mode. *)
Theorem Open_address_without_parts pszNewName papszOpenOptionsIn (bTestOpen : Z) st :
  CSLFetchNameValue papszOpenOptionsIn "MODEL" = None ->
  CSLTokenizeString2 pszNewName "," 0 = [] ->
  Open pszNewName papszOpenOptionsIn bTestOpen st = (FALSE, st).
Proof.
  intros O T. rewrite Open_run. unfold resolve_names. now rewrite O, T.
Qed.

(** With a MODEL option the address is not split: the file [Open] tries
    to open is the whole address, which becomes the name of the container,
    and the model path is the value of the option. *)
Theorem Open_model_option pszNewName papszOpenOptionsIn (bTestOpen : Z) st
  (model : string) :
  CSLFetchNameValue papszOpenOptionsIn "MODEL" = Some model ->
  resolve_names pszNewName papszOpenOptionsIn = Some (pszNewName, model)
  /\ pszName (self (snd (Open pszNewName papszOpenOptionsIn bTestOpen st)))
     = Some pszNewName
  /\ exists tail,
       trace (snd (Open pszNewName papszOpenOptionsIn bTestOpen st))
       = (trace st ++ EvVSIFOpenL pszNewName "r" (vsi_fopen pszNewName "r") :: tail)%list.
Proof.
  intros O.
  assert (R : resolve_names pszNewName papszOpenOptionsIn = Some (pszNewName, model))
    by (unfold resolve_names; now rewrite O).
  split; [exact R|].
  destruct (vsi_fopen pszNewName "r") as [fp|] eqn:F.
  - destruct (Open_shape _ _ bTestOpen st _ _ _ R F) as (st0 & S0 & T0 & E).
    rewrite E.
    destruct ((bTestOpen =? 0) || header_is_ili2 (probed_header (vsi_bytes fp))).
    + destruct (instantiate_reader_full pszNewName pszNewName model st0)
        as (d' & tail & Rn & _ & _ & _ & N & _).
      rewrite Rn. cbn [snd self trace]. rewrite N, S0, T0. split; [reflexivity|].
      eexists. rewrite <- app_assoc. cbn [app]. reflexivity.
    + cbn [snd]. rewrite S0, T0. split; [reflexivity|]. eexists. reflexivity.
  - rewrite Open_run, R. cbv zeta. rewrite F. cbn [snd self trace].
    split; [reflexivity|]. eexists. reflexivity.
Qed.

(** In trusted mode the header is not read: a file that opens is closed
    again and the reader is instantiated whatever the file holds.  [Open]
    returns TRUE exactly when a reader can be instantiated. *)
Theorem Open_trusted_skips_header pszNewName papszOpenOptionsIn st
  (osBasename osModelFilename : string) (fp : VSILFILE) :
  resolve_names pszNewName papszOpenOptionsIn = Some (osBasename, osModelFilename) ->
  vsi_fopen osBasename "r" = Some fp ->
  exists st' tail,
    Open pszNewName papszOpenOptionsIn 0 st
    = (match new_ILI2Reader with Some _ => TRUE | None => FALSE end, st')
    /\ trace st'
       = (trace st ++ [EvVSIFOpenL osBasename "r" (Some fp); EvVSIFCloseL fp] ++ tail)%list
    /\ filter is_read tail = []
    /\ taken_for_ili2 tail = true.
Proof.
  intros R F. destruct (Open_shape _ _ 0 st _ _ _ R F) as (st0 & S0 & T0 & E).
  rewrite E. cbn [Z.eqb orb].
  destruct (instantiate_reader_full pszNewName osBasename osModelFilename st0)
    as (d' & tail & Rn & _ & _ & _ & _ & No & Yes).
  rewrite Rn. eexists. exists tail. split; [reflexivity|]. cbn [trace].
  rewrite T0. cbn [Z.eqb app]. split; [rewrite <- app_assoc; reflexivity|].
  destruct new_ILI2Reader as [rd0|].
  - destruct Yes as (rd & _ & _ & -> & _); [discriminate|].
    cbn [filter is_read taken_for_ili2 existsb is_reader_creation orb].
    split; [|reflexivity].
    rewrite !filter_app. cbn [filter is_read app].
    rewrite filter_map_reset by reflexivity.
    now destruct (String.eqb osModelFilename "").
  - destruct No as (-> & _); [reflexivity|]. split; reflexivity.
Qed.

(** When no reader can be instantiated, a file that was taken for ILI2
    (trusted, or with the signature in its header) makes [Open] return
    FALSE after one error of class failure and number AppDefined, in
    probing mode too; the file has been closed, and no layer is listed. *)
Theorem Open_without_reader pszNewName papszOpenOptionsIn (bTestOpen : Z) st
  (osBasename osModelFilename : string) (fp : VSILFILE) :
  new_ILI2Reader = None ->
  resolve_names pszNewName papszOpenOptionsIn = Some (osBasename, osModelFilename) ->
  vsi_fopen osBasename "r" = Some fp ->
  bTestOpen = 0 \/ header_is_ili2 (probed_header (vsi_bytes fp)) = true ->
  exists st' before,
    Open pszNewName papszOpenOptionsIn bTestOpen st = (FALSE, st')
    /\ trace st'
       = (trace st ++ before
          ++ [EvVSIFCloseL fp; EvCreateILI2Reader false;
              EvCPLError CE_Failure CPLE_AppDefined (no_reader_msg pszNewName)])%list
    /\ filter is_error before = []
    /\ listLayer (self st') = listLayer (self st)
    /\ poReader (self st') = None.
Proof.
  intros N R F A. destruct (Open_shape _ _ bTestOpen st _ _ _ R F) as (st0 & S0 & T0 & E).
  rewrite E.
  replace ((bTestOpen =? 0) || header_is_ili2 (probed_header (vsi_bytes fp))) with true.
  2:{ symmetry. destruct A as [-> | ->]; [reflexivity | apply orb_true_r]. }
  destruct (instantiate_reader_full pszNewName osBasename osModelFilename st0)
    as (d' & tail & Rn & _ & _ & _ & _ & No & _).
  rewrite Rn, N. destruct (No N) as (-> & L & Rd & _).
  eexists. exists (EvVSIFOpenL osBasename "r" (Some fp)
                   :: (if bTestOpen =? 0 then []
                       else [EvVSIFReadL fp 1 1000
                               (Z.of_nat (String.length
                                  (substring 0 (Z.to_nat (1 * 1000)) (vsi_bytes fp))))])).
  split; [reflexivity|]. cbn [self trace]. rewrite T0, L, Rd, S0.
  split; [|split; [|split; reflexivity]].
  - repeat (rewrite <- app_assoc; cbn [app]). reflexivity.
  - now destruct (bTestOpen =? 0).
Qed.

(** When [Open] returns TRUE, the last things it did are to fetch the
    layers of the reader and to reset each of them once, in the order of
    the list it keeps; nothing was reset before. *)
Theorem Open_resets_every_layer pszNewName papszOpenOptionsIn (bTestOpen : Z) st st' :
  Open pszNewName papszOpenOptionsIn bTestOpen st = (TRUE, st') ->
  exists before,
    trace st'
    = (trace st ++ before
       ++ EvGetLayers :: map EvResetReading (listLayer (self st')))%list
    /\ filter is_reset before = [].
Proof.
  intros H. rewrite Open_run in H.
  destruct (resolve_names pszNewName papszOpenOptionsIn) as [[b m]|] eqn:R;
    [|discriminate].
  cbv zeta in H. destruct (vsi_fopen b "r") as [fp|] eqn:F; [|discriminate].
  destruct (Open_shape _ _ bTestOpen st _ _ _ R F) as (st0 & S0 & T0 & E).
  rewrite Open_run, R in E. cbv zeta in E. rewrite F in E. rewrite E in H. clear E.
  destruct ((bTestOpen =? 0) || header_is_ili2 (probed_header (vsi_bytes fp)));
    [|discriminate].
  destruct (instantiate_reader_full pszNewName b m st0)
    as (d' & tail & Rn & _ & _ & _ & _ & _ & Yes).
  rewrite Rn in H. destruct new_ILI2Reader; [|discriminate].
  injection H as <-. destruct Yes as (rd & _ & L & -> & _); [discriminate|].
  cbn [self trace]. rewrite L, T0.
  exists (EvVSIFOpenL b "r" (Some fp)
          :: (if bTestOpen =? 0 then []
              else [EvVSIFReadL fp 1 1000
                      (Z.of_nat (String.length
                         (substring 0 (Z.to_nat (1 * 1000)) (vsi_bytes fp))))])
          ++ [EvVSIFCloseL fp; EvCreateILI2Reader true]
          ++ (if String.eqb m "" then [] else [EvReaderReadModel m])
          ++ [EvSetSourceFile b; EvSaveClasses b])%list.
  split.
  - repeat (rewrite <- app_assoc; cbn [app]). reflexivity.
  - destruct (bTestOpen =? 0), (String.eqb m ""); reflexivity.
Qed.

(** When [Open] returns TRUE, the reader was asked to load a model
    exactly when the model path of the address is not empty, once and with
    that path; with an empty model path the catalog is the one the
    container had. *)
Theorem Open_loads_named_model pszNewName papszOpenOptionsIn (bTestOpen : Z) st st'
  (osBasename osModelFilename : string) :
  resolve_names pszNewName papszOpenOptionsIn = Some (osBasename, osModelFilename) ->
  Open pszNewName papszOpenOptionsIn bTestOpen st = (TRUE, st') ->
  exists evs,
    trace st' = (trace st ++ evs)%list
    /\ filter is_model_load evs
       = (if String.eqb osModelFilename "" then []
          else [EvReaderReadModel osModelFilename])
    /\ (osModelFilename = "" -> poImdReader (self st') = poImdReader (self st)).
Proof.
  intros R H.
  destruct (vsi_fopen osBasename "r") as [fp|] eqn:F.
  2:{ rewrite Open_run, R in H. cbv zeta in H. rewrite F in H. discriminate. }
  destruct (Open_shape _ _ bTestOpen st _ _ _ R F) as (st0 & S0 & T0 & E).
  rewrite E in H. clear E.
  destruct ((bTestOpen =? 0) || header_is_ili2 (probed_header (vsi_bytes fp)));
    [|discriminate].
  destruct (instantiate_reader_full pszNewName osBasename osModelFilename st0)
    as (d' & tail & Rn & _ & _ & _ & _ & _ & Yes).
  rewrite Rn in H. destruct new_ILI2Reader; [|discriminate].
  injection H as <-. destruct Yes as (rd & _ & _ & -> & I); [discriminate|].
  cbn [self trace]. rewrite T0, S0 in *. eexists. split.
  - rewrite <- app_assoc. reflexivity.
  - split; [|exact I].
    repeat (rewrite ?filter_app; cbn [filter is_model_load app]).
    rewrite (filter_map_reset is_model_load) by reflexivity.
    destruct (bTestOpen =? 0), (String.eqb osModelFilename ""); reflexivity.
Qed.

(** Whatever the outcome, [Open] opens one file, the data path, for
    reading, and closes it once if it opened: the handle does not outlive
    the call. *)
Theorem Open_closes_what_it_opens pszNewName papszOpenOptionsIn (bTestOpen : Z) st
  (osBasename osModelFilename : string) :
  resolve_names pszNewName papszOpenOptionsIn = Some (osBasename, osModelFilename) ->
  exists evs,
    trace (snd (Open pszNewName papszOpenOptionsIn bTestOpen st)) = (trace st ++ evs)%list
    /\ filter is_open evs = [EvVSIFOpenL osBasename "r" (vsi_fopen osBasename "r")]
    /\ filter is_close evs = match vsi_fopen osBasename "r" with
                             | Some fp => [EvVSIFCloseL fp]
                             | None => []
                             end.
Proof.
  intros R. destruct (vsi_fopen osBasename "r") as [fp|] eqn:F.
  - destruct (Open_shape _ _ bTestOpen st _ _ _ R F) as (st0 & S0 & T0 & E).
    rewrite E. clear E.
    destruct ((bTestOpen =? 0) || header_is_ili2 (probed_header (vsi_bytes fp))).
    + destruct (instantiate_reader_full pszNewName osBasename osModelFilename st0)
        as (d' & tail & Rn & _ & _ & _ & _ & No & Yes).
      rewrite Rn. cbn [snd trace]. rewrite T0. eexists. split.
      { rewrite <- app_assoc. reflexivity. }
      destruct new_ILI2Reader as [rd0|].
      * destruct Yes as (rd & _ & _ & -> & _); [discriminate|].
        repeat (rewrite ?filter_app; cbn [filter is_open is_close app]).
        rewrite (filter_map_reset is_open), (filter_map_reset is_close) by reflexivity.
        destruct (bTestOpen =? 0), (String.eqb osModelFilename ""); split; reflexivity.
      * destruct No as (-> & _); [reflexivity|].
        destruct (bTestOpen =? 0); split; reflexivity.
    + cbn [snd]. rewrite T0. eexists. split; [reflexivity|].
      destruct (bTestOpen =? 0); split; reflexivity.
  - rewrite Open_run, R. cbv zeta. rewrite F. cbn [snd trace].
    eexists. split; [reflexivity|]. destruct (bTestOpen =? 0); split; reflexivity.
Qed.

Lemma at0_c_str_prefix (bytes : string) (n : nat) :
  at0 (c_str (substring 0 (S n) bytes)) = "<"%char -> at0 bytes = "<"%char.
Proof.
  destruct bytes as [|c r]; cbn; [discriminate|].
  destruct (Ascii.eqb c NUL); cbn; [discriminate | auto].
Qed.

(** In probing mode a file that is empty, or whose first byte is not [<],
    is not taken: [Open] returns FALSE having opened, read and closed the
    file, and reports no error. *)
Theorem Open_probe_first_byte_of_file pszNewName papszOpenOptionsIn (bTestOpen : Z) st
  (osBasename osModelFilename : string) (fp : VSILFILE) :
  bTestOpen <> 0 ->
  resolve_names pszNewName papszOpenOptionsIn = Some (osBasename, osModelFilename) ->
  vsi_fopen osBasename "r" = Some fp ->
  at0 (vsi_bytes fp) <> "<"%char ->
  exists nRead,
    Open pszNewName papszOpenOptionsIn bTestOpen st
    = (FALSE,
       mkState (set_pszName (Some osBasename) (self st))
         (trace st ++ [EvVSIFOpenL osBasename "r" (Some fp);
                       EvVSIFReadL fp 1 1000 nRead; EvVSIFCloseL fp])%list)
    /\ nRead = Z.min 1000 (Z.of_nat (String.length (vsi_bytes fp))).
Proof.
  intros T R F A. rewrite Open_run, R. cbv zeta. rewrite F.
  replace (bTestOpen =? 0) with false by (symmetry; now apply Z.eqb_neq).
  assert (E : header_is_ili2
                (szHeader_of (substring 0 (Z.to_nat (1 * 1000)) (vsi_bytes fp))) = false).
  { rewrite szHeader_window. unfold header_is_ili2.
    destruct (Ascii.eqb (at0 (c_str (substring 0 999 (vsi_bytes fp)))) "<") eqn:B;
      [|reflexivity].
    apply Ascii.eqb_eq in B. apply at0_c_str_prefix in B. contradiction. }
  rewrite E. eexists. split; [reflexivity|].
  change (Z.to_nat (1 * 1000)) with 1000%nat. rewrite substring_length. lia.
Qed.

(** ** Create *)

(** When the output file cannot be opened, [Create] returns FALSE after
    one error of class failure and number OpenFailed that names the file it
    tried, the entry of a bare archive included.  The model is not loaded
    and nothing is written; the container holds no stream. *)
Theorem Create_output_not_opened pszFilename papszOptions st (base model : string)
  (rest : list string) :
  CSLTokenizeString2 pszFilename "," 0 = base :: model :: rest ->
  vsi_fopen (fst (output_target base)) (snd (output_target base)) = None ->
  exists st',
    Create pszFilename papszOptions st = (FALSE, st')
    /\ trace st'
       = (trace st
          ++ [EvVSIFOpenL (fst (output_target base)) (snd (output_target base)) None;
              EvCPLError CE_Failure CPLE_OpenFailed
                (create_failed_msg (fst (output_target base)))])%list
    /\ fpOutput (self st') = None
    /\ poImdReader (self st') = poImdReader (self st).
Proof.
  intros T F. rewrite Create_run. cbv zeta. rewrite T.
  assert (C : (1 <? CSLCount (base :: model :: rest)) = true)
    by (apply Z.ltb_lt; unfold CSLCount; simpl List.length; lia).
  rewrite C. cbn [nth_error CPLStrdup].
  destruct (output_target base) as [path mode]. cbn [fst snd] in F. rewrite F.
  eexists. split; [reflexivity|]. cbn [self trace fst]. repeat split; reflexivity.
Qed.

(** The name [/vsistdout/], and every name that starts with [/vsigzip/],
    is opened as it is, for writing only; no entry name is added, whatever
    the extension. *)
Theorem Create_stream_schemes pszFilename papszOptions st (base model : string)
  (rest : list string) :
  CSLTokenizeString2 pszFilename "," 0 = base :: model :: rest ->
  strcmp0 base "/vsistdout/" = true \/ STARTS_WITH base "/vsigzip/" = true ->
  exists evs,
    trace (snd (Create pszFilename papszOptions st)) = (trace st ++ evs)%list
    /\ opened evs = [(base, "wb")]
    /\ pszName (self (snd (Create pszFilename papszOptions st))) = Some base.
Proof.
  intros T S. destruct (Create_opens _ papszOptions st _ _ _ T) as (evs & Tr & O & N).
  exists evs. split; [exact Tr|]. rewrite O, N.
  assert (E : output_target base = (base, "wb")).
  { unfold output_target. destruct S as [-> | S]; [reflexivity|].
    rewrite S. now rewrite orb_true_r. }
  rewrite E. split; reflexivity.
Qed.

(** A name that starts with [/vsizip/] and whose extension is not [zip]
    (it names its entry already) is opened as it is, for writing only. *)
Theorem Create_zip_with_entry pszFilename papszOptions st (base model : string)
  (rest : list string) :
  CSLTokenizeString2 pszFilename "," 0 = base :: model :: rest ->
  STARTS_WITH base "/vsizip/" = true ->
  EQUAL (c_str (CPLGetExtensionSafe base)) "zip" = false ->
  exists evs,
    trace (snd (Create pszFilename papszOptions st)) = (trace st ++ evs)%list
    /\ opened evs = [(base, "wb")]
    /\ pszName (self (snd (Create pszFilename papszOptions st))) = Some base.
Proof.
  intros T Z E. destruct (Create_opens _ papszOptions st _ _ _ T) as (evs & Tr & O & N).
  exists evs. split; [exact Tr|]. rewrite O, N.
  assert (Tg : output_target base = (base, "wb")).
  { unfold output_target. rewrite Z, E.
    apply CStrFacts.STARTS_WITH_iff in Z as [post ->]. reflexivity. }
  rewrite Tg. split; reflexivity.
Qed.

(** On a container that holds no stream, [Create] returns TRUE or FALSE,
    and TRUE exactly when the container holds the output stream afterwards. *)
Theorem Create_result_and_stream pszFilename papszOptions st :
  fpOutput (self st) = None ->
  (fst (Create pszFilename papszOptions st) = TRUE
   \/ fst (Create pszFilename papszOptions st) = FALSE)
  /\ (fst (Create pszFilename papszOptions st) = TRUE
      <-> fpOutput (self (snd (Create pszFilename papszOptions st))) <> None).
Proof.
  intros F. rewrite Create_run. cbv zeta.
  destruct (if 1 <? CSLCount (CSLTokenizeString2 pszFilename "," 0)
            then nth_error (CSLTokenizeString2 pszFilename "," 0) 1 else None)
    as [model|].
  - destruct (output_target _) as [path mode].
    destruct (vsi_fopen path mode) as [fp|]; cbn [fst snd self fpOutput
      set_poImdReader set_fpOutput].
    + split; [now left|]. split; [discriminate | reflexivity].
    + split; [now right|]. split; [discriminate | congruence].
  - cbn [fst snd self fpOutput set_pszName]. rewrite F.
    split; [now right|]. split; [discriminate | congruence].
Qed.

(** An address without any part (the empty address, or commas only):
    [Create] returns FALSE after the error on the missing model; nothing is
    opened, and the container is named by the empty string. *)
Theorem Create_address_without_parts pszFilename papszOptions st :
  CSLTokenizeString2 pszFilename "," 0 = [] ->
  exists st',
    Create pszFilename papszOptions st = (FALSE, st')
    /\ trace st' = (trace st ++ [EvCPLError CE_Failure CPLE_AppDefined no_model_msg])%list
    /\ pszName (self st') = Some ""
    /\ fpOutput (self st') = fpOutput (self st).
Proof.
  intros T. rewrite Create_run. cbv zeta. rewrite T.
  eexists. split; [reflexivity|]. repeat split; reflexivity.
Qed.

(** Only the first two parts of the address count, and the options do
    not: two addresses with the same output part and the same model part
    make [Create] do the same. *)
Theorem Create_uses_two_parts pszFilename1 pszFilename2 papszOptions1 papszOptions2 st
  (base model : string) (rest1 rest2 : list string) :
  CSLTokenizeString2 pszFilename1 "," 0 = base :: model :: rest1 ->
  CSLTokenizeString2 pszFilename2 "," 0 = base :: model :: rest2 ->
  Create pszFilename1 papszOptions1 st = Create pszFilename2 papszOptions2 st.
Proof.
  intros T1 T2. rewrite !Create_run. cbv zeta. rewrite T1, T2.
  assert (C : forall rest, (1 <? CSLCount (base :: model :: rest)) = true)
    by (intros; apply Z.ltb_lt; unfold CSLCount; simpl List.length; lia).
  now rewrite !C.
Qed.

(** ** Layers *)

Lemma Open_keeps_array pszNewName papszOpenOptionsIn (bTestOpen : Z) st :
  nLayers (self (snd (Open pszNewName papszOpenOptionsIn bTestOpen st)))
  = nLayers (self st)
  /\ papoLayers (self (snd (Open pszNewName papszOpenOptionsIn bTestOpen st)))
     = papoLayers (self st).
Proof.
  destruct (resolve_names pszNewName papszOpenOptionsIn) as [[b m]|] eqn:R.
  2:{ rewrite Open_run, R. now split. }
  destruct (vsi_fopen b "r") as [fp|] eqn:F.
  2:{ rewrite Open_run, R. cbv zeta. rewrite F. now split. }
  destruct (Open_shape _ _ bTestOpen st _ _ _ R F) as (st0 & S0 & T0 & E).
  rewrite E. destruct ((bTestOpen =? 0) || _).
  - destruct (instantiate_reader_full pszNewName b m st0)
      as (d' & tail & Rn & _ & N & A & _).
    rewrite Rn. cbn [snd self]. rewrite N, A, S0. now split.
  - cbn [snd]. rewrite S0. now split.
Qed.

Lemma Create_keeps_layers pszFilename papszOptions st :
  nLayers (self (snd (Create pszFilename papszOptions st))) = nLayers (self st)
  /\ papoLayers (self (snd (Create pszFilename papszOptions st))) = papoLayers (self st)
  /\ listLayer (self (snd (Create pszFilename papszOptions st))) = listLayer (self st).
Proof.
  rewrite Create_run. cbv zeta.
  destruct (if 1 <? CSLCount (CSLTokenizeString2 pszFilename "," 0)
            then nth_error (CSLTokenizeString2 pszFilename "," 0) 1 else None).
  - destruct (output_target _) as [path mode].
    destruct (vsi_fopen path mode); repeat split; reflexivity.
  - repeat split; reflexivity.
Qed.

Lemma call_counted c st :
  layers_counted (self st) -> layers_counted (self (snd (call c st))).
Proof.
  unfold layers_counted. intros H. destruct c as [n g o|i|cap]; unfold call;
    rewrite bind_run; cbn [snd ret].
  - rewrite ICreateLayer_run. destruct (fpOutput (self st)); [|exact H].
    cbv zeta. destruct (GetTableDefnRef _); cbn [snd self push_layer nLayers papoLayers];
      rewrite length_app; cbn [List.length]; lia.
  - now rewrite GetLayer_value.
  - now rewrite TestCapability_run.
Qed.

Lemma calls_counted l st :
  layers_counted (self st) -> layers_counted (self (snd (calls l st))).
Proof.
  revert st; induction l as [|c l IH]; intros st H; [exact H|].
  unfold calls in *. simpl for_each. rewrite bind_run. apply IH. now apply call_counted.
Qed.

(** The count of layers is the length of the array of layers at every
    point of a lifetime: after construction, after [Open] or [Create], and
    after any calls. *)
Theorem layer_count_invariant (o : Opening) (l : list Call) :
  layers_counted (self fresh)
  /\ layers_counted (self (snd (opening o fresh)))
  /\ layers_counted (self (snd (fst (lifetime o l)))).
Proof.
  assert (F : layers_counted (self (@fresh P))) by reflexivity.
  assert (Op : layers_counted (self (snd (opening o fresh)))).
  { unfold layers_counted. destruct o as [n opts t | n opts]; cbn [opening].
    - destruct (Open_keeps_array n opts t fresh) as [-> ->]. exact F.
    - destruct (Create_keeps_layers n opts fresh) as (-> & -> & _). exact F. }
  split; [exact F|]. split; [exact Op|].
  rewrite lifetime_run. cbn [fst snd]. now apply calls_counted.
Qed.

(** In a container that holds its output stream every layer creation
    adds one layer at the end of the array, names met before included:
    after some calls the array is the earlier array followed by as many
    layers as there were creations. *)
Theorem creations_append (l : list Call) st (fp : VSILFILE) :
  fpOutput (self st) = Some fp ->
  exists added,
    papoLayers (self (snd (calls l st))) = (papoLayers (self st) ++ added)%list
    /\ List.length added = List.length (filter is_creation l)
    /\ nLayers (self (snd (calls l st)))
       = nLayers (self st) + Z.of_nat (List.length (filter is_creation l)).
Proof.
  revert st; induction l as [|c l IH]; intros st F.
  - exists []. cbn. rewrite app_nil_r. split; [reflexivity|]. split; [reflexivity | lia].
  - unfold calls in *. simpl for_each. rewrite bind_run.
    destruct (call_frame c st) as (Fc & _).
    destruct (IH (snd (call c st))) as (added & A & L & N); [congruence|].
    rewrite A, N. clear IH A N.
    destruct c as [n g o|i|cap]; unfold call; rewrite bind_run; cbn [snd ret filter is_creation].
    + rewrite ICreateLayer_run, F. cbv zeta.
      destruct (GetTableDefnRef _) as [defn|];
        cbn [snd self push_layer papoLayers nLayers].
      * exists (mkLayer defn
                  (poGeomFieldInfos (GetFeatureDefnInfo (poImdReader (self st)) n))
                :: added).
        rewrite <- app_assoc. cbn [List.length app]. rewrite L.
        split; [reflexivity|]. split; [reflexivity | lia].
      * eexists (_ :: added).
        rewrite <- app_assoc. cbn [List.length app]. rewrite L.
        split; [reflexivity|]. split; [reflexivity | lia].
    + rewrite GetLayer_value. cbn [snd]. exists added. now split.
    + rewrite TestCapability_run. cbn [snd]. exists added. now split.
Qed.

Lemma stream_only_after_create (o : Opening) :
  is_create o && (fst (opening o fresh) =? TRUE) = false ->
  fpOutput (self (snd (opening o fresh))) = None.
Proof.
  intros H. destruct o as [n opts t | n opts]; cbn [opening is_create andb] in *.
  - destruct (Open_frame n opts t fresh) as (-> & _). reflexivity.
  - revert H. rewrite Create_run. cbv zeta.
    destruct (if 1 <? CSLCount (CSLTokenizeString2 n "," 0)
              then nth_error (CSLTokenizeString2 n "," 0) 1 else None);
      [|reflexivity].
    destruct (output_target _) as [path mode].
    destruct (vsi_fopen path mode); [discriminate | reflexivity].
Qed.

(** In a container that holds no stream (opened for reading, or left by a
    [Create] that failed) layer creation returns null and changes nothing,
    whatever was called before; the create-layer capability is answered
    TRUE all the same. *)
Theorem no_layer_without_stream (o : Opening) (l : list Call) pszLayerName
  (poGeomFieldDefn : option OGRGeomFieldDefn) papszOptions :
  is_create o && (fst (opening o fresh) =? TRUE) = false ->
  ICreateLayer pszLayerName poGeomFieldDefn papszOptions
    (snd (calls l (snd (opening o fresh))))
  = (None, snd (calls l (snd (opening o fresh))))
  /\ fst (TestCapability ODsCCreateLayer (snd (calls l (snd (opening o fresh)))))
     = TRUE.
Proof.
  intros H. split; [|now rewrite TestCapability_run].
  destruct (calls_frame l (snd (opening o fresh))) as (F & _).
  now rewrite ICreateLayer_run, F, (stream_only_after_create o H).
Qed.

(** For a layer the catalog has, layer creation returns a layer on the
    table definition and the geometry fields of the catalog; the geometry
    descriptor asked for plays no part, and no warning is reported. *)
Theorem create_layer_from_catalog pszLayerName
  (poGeomFieldDefn : option OGRGeomFieldDefn) papszOptions st (fp : VSILFILE)
  (poTableDefn : OGRFeatureDefn) :
  fpOutput (self st) = Some fp ->
  GetTableDefnRef (GetFeatureDefnInfo (poImdReader (self st)) pszLayerName)
  = Some poTableDefn ->
  exists poLayer st',
    ICreateLayer pszLayerName poGeomFieldDefn papszOptions st = (Some poLayer, st')
    /\ poFeatureDefn poLayer = poTableDefn
    /\ oGeomFieldInfos poLayer
       = poGeomFieldInfos (GetFeatureDefnInfo (poImdReader (self st)) pszLayerName)
    /\ trace st' = trace st
    /\ papoLayers (self st') = (papoLayers (self st) ++ [poLayer])%list
    /\ fpOutput (self st') = Some fp.
Proof.
  intros F A. rewrite ICreateLayer_run, F. cbv zeta. rewrite A.
  eexists. eexists. split; [reflexivity|]. cbn [poFeatureDefn oGeomFieldInfos self trace
    push_layer papoLayers fpOutput]. repeat split; auto.
Qed.

Lemma GetLayer_after_calls (l : list Call) (i : Z) st :
  fst (GetLayer i (snd (calls l st))) = fst (GetLayer i st).
Proof.
  rewrite !GetLayer_value. cbn [fst].
  destruct (calls_frame l st) as (_ & _ & L & _). now rewrite L.
Qed.

(** After an [Open] that returned TRUE, and whatever is called later,
    [GetLayer] at an index from 0 returns the layer the reader has at that
    position, and null from the number of the reader's layers on. *)
Theorem lookup_after_open pszNewName papszOpenOptionsIn (bTestOpen : Z) st st' :
  Open pszNewName papszOpenOptionsIn bTestOpen st = (TRUE, st') ->
  exists rd,
    poReader (self st') = Some rd
    /\ forall (l : list Call) (i : Z),
         0 <= i ->
         fst (GetLayer i (snd (calls l st')))
         = nth_error (ILI2_GetLayers rd) (Z.to_nat i).
Proof.
  intros H. destruct (Open_discovers _ _ _ _ _ H) as (rd & R & L).
  exists rd. split; [exact R|]. intros l i I.
  rewrite GetLayer_after_calls, GetLayer_value. cbn [fst]. rewrite L.
  now replace (i <? 0) with false by (symmetry; apply Z.ltb_ge; lia).
Qed.

(** A container made by [Create] lists no layer: whatever the address
    and whatever layers are created afterwards, [GetLayer] returns null at
    every index. *)
Theorem created_container_lists_no_layer pszFilename papszOptions (l : list Call)
  (i : Z) :
  fst (GetLayer i (snd (calls l (snd (Create pszFilename papszOptions fresh))))) = None.
Proof.
  rewrite GetLayer_after_calls, GetLayer_value. cbn [fst].
  destruct (Create_keeps_layers pszFilename papszOptions fresh) as (_ & _ & ->).
  cbn [fresh self constructor listLayer].
  destruct (i <? 0); [reflexivity|]. now destruct (Z.to_nat i).
Qed.


(** ** Outcomes and handles *)

(** [Open] returns TRUE or FALSE, and TRUE exactly when the address has a
    data path, the file opens, it is trusted or its header has the
    signature, and a reader can be instantiated. *)
Theorem Open_succeeds_iff pszNewName papszOpenOptionsIn (bTestOpen : Z) st :
  (fst (Open pszNewName papszOpenOptionsIn bTestOpen st) = TRUE
   \/ fst (Open pszNewName papszOpenOptionsIn bTestOpen st) = FALSE)
  /\ (fst (Open pszNewName papszOpenOptionsIn bTestOpen st) = TRUE
      <-> exists osBasename osModelFilename fp,
            resolve_names pszNewName papszOpenOptionsIn
            = Some (osBasename, osModelFilename)
            /\ vsi_fopen osBasename "r" = Some fp
            /\ (bTestOpen = 0 \/ header_is_ili2 (probed_header (vsi_bytes fp)) = true)
            /\ new_ILI2Reader <> None).
Proof.
  destruct (resolve_names pszNewName papszOpenOptionsIn) as [[b m]|] eqn:R.
  2:{ rewrite Open_run, R. cbn [fst]. split; [now right|].
      split; [discriminate|]. intros (? & ? & ? & H & _). discriminate H. }
  destruct (vsi_fopen b "r") as [fp|] eqn:F.
  2:{ rewrite Open_run, R. cbv zeta. rewrite F. cbn [fst]. split; [now right|].
      split; [discriminate|]. intros (b' & m' & fp' & H & O & _).
      injection H as <- <-. congruence. }
  destruct (Open_shape _ _ bTestOpen st _ _ _ R F) as (st0 & _ & _ & E).
  rewrite E. clear E.
  destruct (bTestOpen =? 0) eqn:T; cbn [orb].
  - apply Z.eqb_eq in T.
    destruct (instantiate_reader_full pszNewName b m st0) as (d' & tail & Rn & _).
    rewrite Rn. cbn [fst]. destruct new_ILI2Reader.
    + split; [now left|]. split; [|reflexivity]. intros _.
      exists b, m, fp. repeat split; auto. discriminate.
    + split; [now right|]. split; [discriminate|].
      intros (? & ? & ? & _ & _ & _ & H). congruence.
  - apply Z.eqb_neq in T.
    destruct (header_is_ili2 (probed_header (vsi_bytes fp))) eqn:H.
    + destruct (instantiate_reader_full pszNewName b m st0) as (d' & tail & Rn & _).
      rewrite Rn. cbn [fst]. destruct new_ILI2Reader.
      * split; [now left|]. split; [|reflexivity]. intros _.
        exists b, m, fp. repeat split; auto. discriminate.
      * split; [now right|]. split; [discriminate|].
        intros (? & ? & ? & _ & _ & _ & N). congruence.
    + cbn [fst]. split; [now right|]. split; [discriminate|].
      intros (b' & m' & fp' & Rb & O & [Z | Hd] & _); [contradiction|].
      injection Rb as <- <-. rewrite F in O. injection O as <-. congruence.
Qed.

(** [Create] returns TRUE exactly when the address has a second part and
    the output file opens; what the model reader makes of the model path
    plays no part. *)
Theorem Create_succeeds_iff pszFilename papszOptions st :
  fst (Create pszFilename papszOptions st) = TRUE
  <-> exists base model rest,
        CSLTokenizeString2 pszFilename "," 0 = base :: model :: rest
        /\ vsi_fopen (fst (output_target base)) (snd (output_target base)) <> None.
Proof.
  rewrite Create_run. cbv zeta.
  destruct (CSLTokenizeString2 pszFilename "," 0) as [|base [|model rest]] eqn:T.
  - cbn. split; [discriminate|]. intros (? & ? & ? & H & _). discriminate H.
  - cbn. split; [discriminate|]. intros (? & ? & ? & H & _). discriminate H.
  - assert (C : (1 <? CSLCount (base :: model :: rest)) = true)
      by (apply Z.ltb_lt; unfold CSLCount; simpl List.length; lia).
    rewrite C. cbn [nth_error CPLStrdup].
    destruct (output_target base) as [path mode] eqn:Tg.
    destruct (vsi_fopen path mode) as [fp|] eqn:F; cbn [fst].
    + split; [|reflexivity]. intros _. exists base, model, rest.
      split; [reflexivity|]. rewrite Tg. cbn [fst snd]. congruence.
    + split; [discriminate|]. intros (b' & m' & r' & H & O).
      injection H as <- <- <-. rewrite Tg in O. cbn [fst snd] in O. congruence.
Qed.

Lemma handles_app tr1 tr2 :
  opened_handles (tr1 ++ tr2) = (opened_handles tr1 ++ opened_handles tr2)%list
  /\ closed_handles (tr1 ++ tr2) = (closed_handles tr1 ++ closed_handles tr2)%list.
Proof. split; apply flat_map_app. Qed.

Lemma handles_errors evs :
  forallb is_error evs = true -> opened_handles evs = [] /\ closed_handles evs = [].
Proof.
  induction evs as [|e evs IH]; [now split|].
  cbn [forallb]. intros H. apply andb_true_iff in H as [He H].
  destruct (IH H) as [O C]. destruct e; try discriminate. now split.
Qed.

Lemma handles_printf fp (texts : list string) :
  opened_handles (map (EvVSIFPrintfL fp) texts) = []
  /\ closed_handles (map (EvVSIFPrintfL fp) texts) = [].
Proof. induction texts as [|t texts IH]; [now split | exact IH]. Qed.

Lemma handles_reset (l : list OGRLayer) :
  opened_handles (map EvResetReading l) = []
  /\ closed_handles (map EvResetReading l) = [].
Proof. induction l as [|x l IH]; [now split | exact IH]. Qed.

Lemma Open_handles pszNewName papszOpenOptionsIn (bTestOpen : Z) st :
  exists evs,
    trace (snd (Open pszNewName papszOpenOptionsIn bTestOpen st)) = (trace st ++ evs)%list
    /\ opened_handles evs = closed_handles evs.
Proof.
  destruct (resolve_names pszNewName papszOpenOptionsIn) as [[b m]|] eqn:R.
  2:{ rewrite Open_run, R. exists []. now rewrite app_nil_r. }
  destruct (vsi_fopen b "r") as [fp|] eqn:F.
  2:{ rewrite Open_run, R. cbv zeta. rewrite F. cbn [snd trace].
      eexists. split; [reflexivity|]. now destruct (bTestOpen =? 0). }
  destruct (Open_shape _ _ bTestOpen st _ _ _ R F) as (st0 & _ & T0 & E).
  rewrite E. clear E.
  assert (Base : forall tail,
             opened_handles tail = [] -> closed_handles tail = [] ->
             opened_handles
               ((EvVSIFOpenL b "r" (Some fp)
                 :: (if bTestOpen =? 0 then []
                     else [EvVSIFReadL fp 1 1000
                             (Z.of_nat (String.length
                                (substring 0 (Z.to_nat (1 * 1000)) (vsi_bytes fp))))])
                 ++ [EvVSIFCloseL fp]) ++ tail)
             = closed_handles
                 ((EvVSIFOpenL b "r" (Some fp)
                   :: (if bTestOpen =? 0 then []
                       else [EvVSIFReadL fp 1 1000
                               (Z.of_nat (String.length
                                  (substring 0 (Z.to_nat (1 * 1000)) (vsi_bytes fp))))])
                   ++ [EvVSIFCloseL fp]) ++ tail)).
  { intros tail O C. destruct (handles_app
      (EvVSIFOpenL b "r" (Some fp)
       :: (if bTestOpen =? 0 then []
           else [EvVSIFReadL fp 1 1000
                   (Z.of_nat (String.length
                      (substring 0 (Z.to_nat (1 * 1000)) (vsi_bytes fp))))])
       ++ [EvVSIFCloseL fp]) tail) as [-> ->].
    rewrite O, C. now destruct (bTestOpen =? 0). }
  destruct ((bTestOpen =? 0) || header_is_ili2 (probed_header (vsi_bytes fp))).
  - destruct (instantiate_reader_full pszNewName b m st0)
      as (d' & tail & Rn & _ & _ & _ & _ & No & Yes).
    rewrite Rn. cbn [snd trace]. rewrite T0. eexists. split.
    { rewrite <- app_assoc. reflexivity. }
    apply Base.
    + destruct new_ILI2Reader as [rd0|].
      * destruct Yes as (rd & _ & _ & -> & _); [discriminate|].
        destruct (String.eqb m ""); exact (proj1 (handles_reset _)).
      * now destruct No as (-> & _).
    + destruct new_ILI2Reader as [rd0|].
      * destruct Yes as (rd & _ & _ & -> & _); [discriminate|].
        destruct (String.eqb m ""); exact (proj2 (handles_reset _)).
      * now destruct No as (-> & _).
  - cbn [snd]. rewrite T0. eexists. split; [reflexivity|].
    rewrite <- (app_nil_r (_ :: _ ++ [EvVSIFCloseL fp])). now apply Base.
Qed.

Lemma created_trace_handles (path mode : string) (fp : VSILFILE) (model : string)
  (before after : list string) (evs : list Event) :
  opened_handles evs = [] -> closed_handles evs = [] ->
  opened_handles
    ((EvVSIFOpenL path mode (Some fp)
      :: EvImdReadModel model :: map (EvVSIFPrintfL fp) before ++ evs)
     ++ map (EvVSIFPrintfL fp) after ++ [EvVSIFCloseL fp])
  = closed_handles
      ((EvVSIFOpenL path mode (Some fp)
        :: EvImdReadModel model :: map (EvVSIFPrintfL fp) before ++ evs)
       ++ map (EvVSIFPrintfL fp) after ++ [EvVSIFCloseL fp]).
Proof.
  intros O C.
  change (EvVSIFOpenL path mode (Some fp)
          :: EvImdReadModel model :: map (EvVSIFPrintfL fp) before ++ evs)%list
    with ([EvVSIFOpenL path mode (Some fp); EvImdReadModel model]
          ++ map (EvVSIFPrintfL fp) before ++ evs)%list.
  rewrite !(proj1 (handles_app _ _)), !(proj2 (handles_app _ _)).
  rewrite !(proj1 (handles_printf _ _)), !(proj2 (handles_printf _ _)), O, C.
  reflexivity.
Qed.


End MoreProperties.

(** * The further properties on concrete inputs *)

(** The empty address, in trusted mode. *)
Lemma Open_address_without_parts_witness :
  @Open Edge.P "" [] 0 fresh = (FALSE, fresh)
  /\ @Open Edge.P ",," [] 0 fresh = (FALSE, fresh).
Proof.
  split.
  - apply (@Open_address_without_parts Edge.P "" [] 0 fresh); reflexivity.
  - apply (@Open_address_without_parts Edge.P ",," [] 0 fresh); reflexivity.
Defined.

(** The file [a,b.xtf], opened with a MODEL option. *)
Lemma Open_model_option_witness :
  pszName (self (snd (@Open Edge.P "a,b.xtf" ["MODEL=roads.imd"] 1 fresh)))
  = Some "a,b.xtf"
  /\ fst (@Open Edge.P "a,b.xtf" ["MODEL=roads.imd"] 1 fresh) = TRUE.
Proof.
  split; [|reflexivity].
  apply (@Open_model_option Edge.P "a,b.xtf" ["MODEL=roads.imd"] 1 fresh "roads.imd").
  reflexivity.
Defined.

(** The empty file, trusted. *)
Lemma Open_trusted_skips_header_witness :
  @vsi_bytes Edge.P 0%nat = ""
  /\ fst (@Open Edge.P "empty.xtf" [] 0 fresh) = TRUE.
Proof.
  split; [reflexivity|].
  destruct (@Open_trusted_skips_header Edge.P "empty.xtf" [] fresh "empty.xtf" "" 0%nat
              eq_refl eq_refl) as (st' & tail & R & _).
  now rewrite R.
Defined.

(** A transfer file, probed without a reader. *)
Lemma Open_without_reader_witness :
  exists st',
    @Open Edge.P_no_reader "sample.xtf" [] 1 fresh = (FALSE, st')
    /\ filter is_error (trace st')
       = [EvCPLError CE_Failure CPLE_AppDefined (no_reader_msg "sample.xtf")].
Proof.
  destruct (@Open_without_reader Edge.P_no_reader "sample.xtf" [] 1 fresh
              "sample.xtf" "" 3%nat eq_refl eq_refl eq_refl (or_intror eq_refl))
    as (st' & before & R & T & E & _).
  exists st'. split; [exact R|]. rewrite T. cbn [fresh trace app].
  rewrite filter_app, E. reflexivity.
Defined.

(** The two layers of [sample.xtf]. *)
Lemma Open_resets_every_layer_witness :
  exists before,
    trace (snd (@Open Concrete.P "sample.xtf" [] 1 fresh))
    = (before ++ [EvGetLayers; EvResetReading Ref.street_layer;
                  EvResetReading Ref.sign_layer])%list.
Proof.
  destruct (@Open_resets_every_layer Concrete.P "sample.xtf" [] 1 fresh
              (snd (@Open Concrete.P "sample.xtf" [] 1 fresh)) eq_refl)
    as (before & T & _).
  exists before. rewrite T. reflexivity.
Defined.

(** [sample.xtf] with and without a model path. *)
Lemma Open_loads_named_model_witness :
  (exists evs,
     trace (snd (@Open Concrete.P "sample.xtf,roads.imd" [] 1 fresh)) = evs
     /\ filter is_model_load evs = [EvReaderReadModel "roads.imd"])
  /\ (exists evs,
        trace (snd (@Open Concrete.P "sample.xtf" [] 1 fresh)) = evs
        /\ filter is_model_load evs = []).
Proof.
  split.
  - destruct (@Open_loads_named_model Concrete.P "sample.xtf,roads.imd" [] 1 fresh
                (snd (@Open Concrete.P "sample.xtf,roads.imd" [] 1 fresh))
                "sample.xtf" "roads.imd" eq_refl eq_refl) as (evs & T & F & _).
    exists evs. split; [exact T | exact F].
  - destruct (@Open_loads_named_model Concrete.P "sample.xtf" [] 1 fresh
                (snd (@Open Concrete.P "sample.xtf" [] 1 fresh))
                "sample.xtf" "" eq_refl eq_refl) as (evs & T & F & _).
    exists evs. split; [exact T | exact F].
Defined.

(** [indented.xtf], which is not taken, is closed all the same. *)
Lemma Open_closes_what_it_opens_witness :
  filter is_close (trace (snd (@Open Concrete.P "indented.xtf" [] 1 fresh)))
  = [EvVSIFCloseL 1%nat].
Proof.
  destruct (@Open_closes_what_it_opens Concrete.P "indented.xtf" [] 1 fresh
              "indented.xtf" "" eq_refl) as (evs & T & _ & C).
  rewrite T. exact C.
Defined.

(** The empty file, probed. *)
Lemma Open_probe_first_byte_of_file_witness :
  @Open Edge.P "empty.xtf" [] 1 fresh
  = (FALSE,
     mkState (set_pszName (Some "empty.xtf") constructor)
       [EvVSIFOpenL "empty.xtf" "r" (Some 0%nat); EvVSIFReadL 0%nat 1 1000 0;
        EvVSIFCloseL 0%nat]).
Proof.
  destruct (@Open_probe_first_byte_of_file Edge.P "empty.xtf" [] 1 fresh
              "empty.xtf" "" 0%nat) as (nRead & R & ->);
    [discriminate | reflexivity | reflexivity | discriminate |].
  exact R.
Defined.

(** An output path that cannot be written. *)
Lemma Create_output_not_opened_witness :
  exists st',
    @Create Concrete.P "/readonly/out.xtf,roads.imd" [] fresh = (FALSE, st')
    /\ trace st'
       = [EvVSIFOpenL "/readonly/out.xtf" "wb+" None;
          EvCPLError CE_Failure CPLE_OpenFailed (create_failed_msg "/readonly/out.xtf")].
Proof.
  destruct (@Create_output_not_opened Concrete.P "/readonly/out.xtf,roads.imd" [] fresh
              "/readonly/out.xtf" "roads.imd" [] eq_refl eq_refl)
    as (st' & R & T & _).
  exists st'. split; [exact R | exact T].
Defined.

(** A gzip path with the extension [zip], and the standard output. *)
Lemma Create_stream_schemes_witness :
  opened (trace (snd (@Create Concrete.P "/vsigzip/a.zip,roads.imd" [] fresh)))
  = [("/vsigzip/a.zip", "wb")]
  /\ opened (trace (snd (@Create Concrete.P "/vsistdout/,roads.imd" [] fresh)))
     = [("/vsistdout/", "wb")].
Proof.
  split.
  - destruct (@Create_stream_schemes Concrete.P "/vsigzip/a.zip,roads.imd" [] fresh
                "/vsigzip/a.zip" "roads.imd" [] eq_refl (or_intror eq_refl))
      as (evs & T & O & _).
    rewrite T. exact O.
  - destruct (@Create_stream_schemes Concrete.P "/vsistdout/,roads.imd" [] fresh
                "/vsistdout/" "roads.imd" [] eq_refl (or_introl eq_refl))
      as (evs & T & O & _).
    rewrite T. exact O.
Defined.

(** An archive path that names its entry. *)
Lemma Create_zip_with_entry_witness :
  opened (trace (snd (@Create Concrete.P "/vsizip/a.zip/b.xtf,roads.imd" [] fresh)))
  = [("/vsizip/a.zip/b.xtf", "wb")].
Proof.
  destruct (@Create_zip_with_entry Concrete.P "/vsizip/a.zip/b.xtf,roads.imd" [] fresh
              "/vsizip/a.zip/b.xtf" "roads.imd" [] eq_refl eq_refl eq_refl)
    as (evs & T & O & _).
  rewrite T. exact O.
Defined.

(** A new container, with and without a model path. *)
Lemma Create_result_and_stream_witness :
  fpOutput (self (snd (@Create Concrete.P "out.xtf,roads.imd" [] fresh))) <> None
  /\ fpOutput (self (snd (@Create Concrete.P "out.xtf" [] fresh))) = None.
Proof.
  split.
  - apply (@Create_result_and_stream Concrete.P "out.xtf,roads.imd" [] fresh eq_refl).
    reflexivity.
  - destruct (@Create_result_and_stream Concrete.P "out.xtf" [] fresh eq_refl)
      as (_ & I).
    destruct (fpOutput (self (snd (@Create Concrete.P "out.xtf" [] fresh)))) eqn:E;
      [|reflexivity].
    destruct I as [_ I]. discriminate I. discriminate.
Defined.

(** The address made of one comma. *)
Lemma Create_address_without_parts_witness :
  exists st',
    @Create Concrete.P "," [] fresh = (FALSE, st')
    /\ pszName (self st') = Some ""
    /\ trace st' = [EvCPLError CE_Failure CPLE_AppDefined no_model_msg].
Proof.
  destruct (@Create_address_without_parts Concrete.P "," [] fresh eq_refl)
    as (st' & R & T & N & _).
  exists st'. split; [exact R|]. split; [exact N | exact T].
Defined.

(** A third part in the address, and options. *)
Lemma Create_uses_two_parts_witness :
  @Create Concrete.P "out.xtf,roads.imd,more" ["A=1"] fresh
  = @Create Concrete.P "out.xtf,roads.imd" [] fresh.
Proof.
  apply (@Create_uses_two_parts Concrete.P "out.xtf,roads.imd,more" "out.xtf,roads.imd"
           ["A=1"] [] fresh "out.xtf" "roads.imd" ["more"] []); reflexivity.
Defined.

(** The same name created twice, with a lookup in between. *)
Lemma creations_append_witness :
  let st := snd (@Create Concrete.P "out.xtf,roads.imd" [] fresh) in
  let l := [CallICreateLayer "Lamps" None []; CallGetLayer 0;
            CallICreateLayer "Lamps" None []] in
  exists added,
    papoLayers (self (snd (calls l st))) = added
    /\ List.length added = 2%nat
    /\ nLayers (self (snd (calls l st))) = 2.
Proof.
  intros st l.
  destruct (@creations_append Concrete.P l st 2%nat eq_refl) as (added & A & L & N).
  exists added. split; [exact A|]. split; [exact L | exact N].
Defined.

(** A container opened for reading, and one whose [Create] failed. *)
Lemma no_layer_without_stream_witness :
  fst (ICreateLayer "Lamps" None []
         (snd (@opening Concrete.P (ByOpen "sample.xtf" [] 1) fresh))) = None
  /\ fst (ICreateLayer "Lamps" None []
            (snd (@opening Concrete.P (ByCreate "out.xtf" []) fresh))) = None.
Proof.
  split.
  - destruct (@no_layer_without_stream Concrete.P (ByOpen "sample.xtf" [] 1) []
                "Lamps" None [] eq_refl) as (R & _).
    cbn [calls for_each ret snd] in R. now rewrite R.
  - destruct (@no_layer_without_stream Concrete.P (ByCreate "out.xtf" []) []
                "Lamps" None [] eq_refl) as (R & _).
    cbn [calls for_each ret snd] in R. now rewrite R.
Defined.

(** The layer [Roads.Street] of the catalog, asked for as points. *)
Lemma create_layer_from_catalog_witness :
  let st := snd (@Create Concrete.P "out.xtf,roads.imd" [] fresh) in
  exists st',
    ICreateLayer "Roads.Street" (Some (mkGeomField "Position" 1)) [] st
    = (Some Ref.street_layer, st')
    /\ trace st' = trace st.
Proof.
  intros st.
  destruct (@create_layer_from_catalog Concrete.P "Roads.Street"
              (Some (mkGeomField "Position" 1)) [] st 2%nat
              (mkFeatureDefn "Roads.Street" [mkField "Name" 4] [mkGeomField "Geometry" 2])
              eq_refl eq_refl)
    as (poLayer & st' & R & D & G & T & _).
  exists st'. split; [|exact T]. rewrite R. f_equal. f_equal.
  destruct poLayer as [defn infos]. cbn in D, G. now subst.
Defined.

(** [sample.xtf], looked up after a refused layer creation. *)
Lemma lookup_after_open_witness :
  let st' := snd (@Open Concrete.P "sample.xtf" [] 1 fresh) in
  fst (GetLayer 1 (snd (calls [CallICreateLayer "Lamps" None []] st')))
  = Some Ref.sign_layer.
Proof.
  intros st'.
  destruct (@lookup_after_open Concrete.P "sample.xtf" [] 1 fresh st' eq_refl)
    as (rd & R & L).
  rewrite (L [CallICreateLayer "Lamps" None []] 1) by discriminate.
  vm_compute in R. injection R as <-. reflexivity.
Defined.
